(** * httpstat: phase-level latency breakdown of one HTTP request

    A shallow embedding of [httpstat.go] and the verification of its
    specification.  The source file holds two revisions of the package: the
    older one, whose hooks keep their instants in variables captured by the
    closures and accumulate into the result with [+=], lives in [Module Old];
    the newer one, which stores every instant in the [Result] itself, is the
    top level of this file.

    Conventions of the embedding:
    - a [time.Time] is the number of nanoseconds since the zero instant
      (January 1, year 1, 00:00:00 UTC), so that [IsZero] is a test against
      [0]; wall clock and monotonic clock are one time line;
    - a [time.Duration] is an [int64] count of nanoseconds; [Time.Sub]
      saturates at the ends of that range, the [+=] of the older revision
      wraps around;
    - every hook that reads [time.Now()] takes that reading as its argument
      [now];
    - a [net.Addr] is a [option string]: [None] is the nil interface, and
      [Some s] an address whose [String()] is [s]; calling [String()] on nil
      panics, which the hooks report as [None]. *)

From Stdlib Require Import ZArith List String Ascii Bool Lia DecimalString.
Import ListNotations.
Local Open Scope Z_scope.

(** ** Package [time] *)

Module time.

Definition Duration : Type := Z.
Definition Time : Type := Z.

Definition minDuration : Duration := - 2 ^ 63.
Definition maxDuration : Duration := 2 ^ 63 - 1.

(** [Time.IsZero] *)
Definition IsZero (t : Time) : bool := t =? 0.

(** [Time.Sub]: the duration [t - u], or the minimum (maximum) duration
    when [t - u] is below (above) what a [Duration] holds. *)
Definition Sub (t u : Time) : Duration :=
  if t - u <? minDuration then minDuration
  else if maxDuration <? t - u then maxDuration
  else t - u.

(** [int64] addition of two durations, as [+=] computes it. *)
Definition wrap (z : Z) : Duration := (z + 2 ^ 63) mod 2 ^ 64 - 2 ^ 63.
Definition add (d e : Duration) : Duration := wrap (d + e).

Definition inRange (d : Duration) : Prop := minDuration <= d <= maxDuration.

End time.

(** ** Package [strings] *)

Module strings.

(** The fields of [s] between occurrences of the one-byte separator [sep],
    as a first field and the list of the others. *)
Fixpoint fields (sep : ascii) (s : string) : string * list string :=
  match s with
  | EmptyString => (EmptyString, [])
  | String c s' =>
      let (x, xs) := fields sep s' in
      if Ascii.eqb c sep then (EmptyString, x :: xs) else (String c x, xs)
  end.

(** [strings.Split(s, sep)] for a separator of one byte. *)
Definition Split (s : string) (sep : ascii) : list string :=
  let (x, xs) := fields sep s in x :: xs.

End strings.

(** ** Package [fmt]

    As much of [Fprintf] as [Format] uses: a format with one verb, [%4d] for
    an [int] or [%4s] for a string, both padded with spaces on the left to a
    width of four.  The formats are Go's interpreted string literals, where
    [\n] is the newline. *)

Module fmt.

Inductive arg : Type :=
| Int (n : Z)
| Str (s : string).

Definition nl : string := String "010" EmptyString.

(** The value of the interpreted string literal written [s]. *)
Fixpoint lit (s : string) : string :=
  match s with
  | EmptyString => EmptyString
  | String c rest =>
      match rest with
      | String c' rest' =>
          if Ascii.eqb c "\" && Ascii.eqb c' "n"
          then String "010" (lit rest')
          else String c (lit rest)
      | EmptyString => String c EmptyString
      end
  end.

Fixpoint spaces (n : nat) : string :=
  match n with
  | O => EmptyString
  | S n' => String " " (spaces n')
  end.

(** Right-justify [s] in a field of width [w]; a longer [s] is not cut. *)
Definition pad (w : nat) (s : string) : string :=
  spaces (w - String.length s) ++ s.

(** The decimal digits of [n], with a minus sign if it is negative. *)
Definition decimal (n : Z) : string := NilZero.string_of_int (Z.to_int n).

Definition verb (a : arg) : string :=
  match a with
  | Int n => pad 4 (decimal n)
  | Str s => pad 4 s
  end.

Fixpoint drop (n : nat) (s : string) : string :=
  match n, s with
  | S n', String _ s' => drop n' s'
  | _, _ => s
  end.

(** [Sprintf(format, a)], for a [format] whose verb suits [a]. *)
Fixpoint Sprintf (format : string) (a : arg) : string :=
  match format with
  | EmptyString => EmptyString
  | String c rest =>
      if String.prefix "%4d" format || String.prefix "%4s" format
      then verb a ++ drop 2 rest
      else String c (Sprintf rest a)
  end.

(** [Fprintf(&buf, format, a)]: the buffer afterwards. *)
Definition Fprintf (buf : string) (format : string) (a : arg) : string :=
  buf ++ Sprintf (lit format) a.

End fmt.

(** ** The newer revision *)

(** The hooks and accessors may panic (nil dereference, index out of range):
    a computation that can is an [option]. *)
Definition bind {A B : Type} (m : option A) (k : A -> option B) : option B :=
  match m with
  | Some a => k a
  | None => None
  end.

Notation "x <- m ;; k" := (bind m (fun x => k))
  (at level 61, m at next level, right associativity).

Record Result : Type := mkResult {
  (* timeline of the request *)
  NameLookup : time.Duration;
  Connect : time.Duration;
  PreTransfer : time.Duration;
  StartTransfer : time.Duration;
  total : time.Duration;
  (* duration of each phase *)
  DNSLookup : time.Duration;
  TCPConnection : time.Duration;
  TLSHandshake : time.Duration;
  ServerProcessing : time.Duration;
  contentTransfer : time.Duration;

  localAddr : string;
  remoteAddr : string;

  dnsStart : time.Time;
  dnsDone : time.Time;
  tcpStart : time.Time;
  tcpDone : time.Time;
  tlsStart : time.Time;
  tlsDone : time.Time;
  serverStart : time.Time;
  serverDone : time.Time;
  transferStart : time.Time;
  transferDone : time.Time;

  isTLS : bool;
  isReused : bool
}.

(** The zero value of the struct: what [new(Result)] or [var r Result] is. *)
Definition zeroResult : Result :=
  {| NameLookup := 0; Connect := 0; PreTransfer := 0; StartTransfer := 0;
     total := 0; DNSLookup := 0; TCPConnection := 0; TLSHandshake := 0;
     ServerProcessing := 0; contentTransfer := 0;
     localAddr := ""; remoteAddr := "";
     dnsStart := 0; dnsDone := 0; tcpStart := 0; tcpDone := 0;
     tlsStart := 0; tlsDone := 0; serverStart := 0; serverDone := 0;
     transferStart := 0; transferDone := 0;
     isTLS := false; isReused := false |}.

(** Assignment to one field, [r.f = v]. *)

Definition set_NameLookup (v : time.Duration) (r : Result) : Result :=
  {| NameLookup := v; Connect := Connect r; PreTransfer := PreTransfer r;
     StartTransfer := StartTransfer r; total := total r;
     DNSLookup := DNSLookup r; TCPConnection := TCPConnection r;
     TLSHandshake := TLSHandshake r;
     ServerProcessing := ServerProcessing r;
     contentTransfer := contentTransfer r; localAddr := localAddr r;
     remoteAddr := remoteAddr r; dnsStart := dnsStart r;
     dnsDone := dnsDone r; tcpStart := tcpStart r; tcpDone := tcpDone r;
     tlsStart := tlsStart r; tlsDone := tlsDone r;
     serverStart := serverStart r; serverDone := serverDone r;
     transferStart := transferStart r; transferDone := transferDone r;
     isTLS := isTLS r; isReused := isReused r |}.

Definition set_Connect (v : time.Duration) (r : Result) : Result :=
  {| NameLookup := NameLookup r; Connect := v;
     PreTransfer := PreTransfer r; StartTransfer := StartTransfer r;
     total := total r; DNSLookup := DNSLookup r;
     TCPConnection := TCPConnection r; TLSHandshake := TLSHandshake r;
     ServerProcessing := ServerProcessing r;
     contentTransfer := contentTransfer r; localAddr := localAddr r;
     remoteAddr := remoteAddr r; dnsStart := dnsStart r;
     dnsDone := dnsDone r; tcpStart := tcpStart r; tcpDone := tcpDone r;
     tlsStart := tlsStart r; tlsDone := tlsDone r;
     serverStart := serverStart r; serverDone := serverDone r;
     transferStart := transferStart r; transferDone := transferDone r;
     isTLS := isTLS r; isReused := isReused r |}.

Definition set_PreTransfer (v : time.Duration) (r : Result) : Result :=
  {| NameLookup := NameLookup r; Connect := Connect r; PreTransfer := v;
     StartTransfer := StartTransfer r; total := total r;
     DNSLookup := DNSLookup r; TCPConnection := TCPConnection r;
     TLSHandshake := TLSHandshake r;
     ServerProcessing := ServerProcessing r;
     contentTransfer := contentTransfer r; localAddr := localAddr r;
     remoteAddr := remoteAddr r; dnsStart := dnsStart r;
     dnsDone := dnsDone r; tcpStart := tcpStart r; tcpDone := tcpDone r;
     tlsStart := tlsStart r; tlsDone := tlsDone r;
     serverStart := serverStart r; serverDone := serverDone r;
     transferStart := transferStart r; transferDone := transferDone r;
     isTLS := isTLS r; isReused := isReused r |}.

Definition set_StartTransfer (v : time.Duration) (r : Result) : Result :=
  {| NameLookup := NameLookup r; Connect := Connect r;
     PreTransfer := PreTransfer r; StartTransfer := v; total := total r;
     DNSLookup := DNSLookup r; TCPConnection := TCPConnection r;
     TLSHandshake := TLSHandshake r;
     ServerProcessing := ServerProcessing r;
     contentTransfer := contentTransfer r; localAddr := localAddr r;
     remoteAddr := remoteAddr r; dnsStart := dnsStart r;
     dnsDone := dnsDone r; tcpStart := tcpStart r; tcpDone := tcpDone r;
     tlsStart := tlsStart r; tlsDone := tlsDone r;
     serverStart := serverStart r; serverDone := serverDone r;
     transferStart := transferStart r; transferDone := transferDone r;
     isTLS := isTLS r; isReused := isReused r |}.

Definition set_total (v : time.Duration) (r : Result) : Result :=
  {| NameLookup := NameLookup r; Connect := Connect r;
     PreTransfer := PreTransfer r; StartTransfer := StartTransfer r;
     total := v; DNSLookup := DNSLookup r;
     TCPConnection := TCPConnection r; TLSHandshake := TLSHandshake r;
     ServerProcessing := ServerProcessing r;
     contentTransfer := contentTransfer r; localAddr := localAddr r;
     remoteAddr := remoteAddr r; dnsStart := dnsStart r;
     dnsDone := dnsDone r; tcpStart := tcpStart r; tcpDone := tcpDone r;
     tlsStart := tlsStart r; tlsDone := tlsDone r;
     serverStart := serverStart r; serverDone := serverDone r;
     transferStart := transferStart r; transferDone := transferDone r;
     isTLS := isTLS r; isReused := isReused r |}.

Definition set_DNSLookup (v : time.Duration) (r : Result) : Result :=
  {| NameLookup := NameLookup r; Connect := Connect r;
     PreTransfer := PreTransfer r; StartTransfer := StartTransfer r;
     total := total r; DNSLookup := v; TCPConnection := TCPConnection r;
     TLSHandshake := TLSHandshake r;
     ServerProcessing := ServerProcessing r;
     contentTransfer := contentTransfer r; localAddr := localAddr r;
     remoteAddr := remoteAddr r; dnsStart := dnsStart r;
     dnsDone := dnsDone r; tcpStart := tcpStart r; tcpDone := tcpDone r;
     tlsStart := tlsStart r; tlsDone := tlsDone r;
     serverStart := serverStart r; serverDone := serverDone r;
     transferStart := transferStart r; transferDone := transferDone r;
     isTLS := isTLS r; isReused := isReused r |}.

Definition set_TCPConnection (v : time.Duration) (r : Result) : Result :=
  {| NameLookup := NameLookup r; Connect := Connect r;
     PreTransfer := PreTransfer r; StartTransfer := StartTransfer r;
     total := total r; DNSLookup := DNSLookup r; TCPConnection := v;
     TLSHandshake := TLSHandshake r;
     ServerProcessing := ServerProcessing r;
     contentTransfer := contentTransfer r; localAddr := localAddr r;
     remoteAddr := remoteAddr r; dnsStart := dnsStart r;
     dnsDone := dnsDone r; tcpStart := tcpStart r; tcpDone := tcpDone r;
     tlsStart := tlsStart r; tlsDone := tlsDone r;
     serverStart := serverStart r; serverDone := serverDone r;
     transferStart := transferStart r; transferDone := transferDone r;
     isTLS := isTLS r; isReused := isReused r |}.

Definition set_TLSHandshake (v : time.Duration) (r : Result) : Result :=
  {| NameLookup := NameLookup r; Connect := Connect r;
     PreTransfer := PreTransfer r; StartTransfer := StartTransfer r;
     total := total r; DNSLookup := DNSLookup r;
     TCPConnection := TCPConnection r; TLSHandshake := v;
     ServerProcessing := ServerProcessing r;
     contentTransfer := contentTransfer r; localAddr := localAddr r;
     remoteAddr := remoteAddr r; dnsStart := dnsStart r;
     dnsDone := dnsDone r; tcpStart := tcpStart r; tcpDone := tcpDone r;
     tlsStart := tlsStart r; tlsDone := tlsDone r;
     serverStart := serverStart r; serverDone := serverDone r;
     transferStart := transferStart r; transferDone := transferDone r;
     isTLS := isTLS r; isReused := isReused r |}.

Definition set_ServerProcessing (v : time.Duration) (r : Result) : Result :=
  {| NameLookup := NameLookup r; Connect := Connect r;
     PreTransfer := PreTransfer r; StartTransfer := StartTransfer r;
     total := total r; DNSLookup := DNSLookup r;
     TCPConnection := TCPConnection r; TLSHandshake := TLSHandshake r;
     ServerProcessing := v; contentTransfer := contentTransfer r;
     localAddr := localAddr r; remoteAddr := remoteAddr r;
     dnsStart := dnsStart r; dnsDone := dnsDone r; tcpStart := tcpStart r;
     tcpDone := tcpDone r; tlsStart := tlsStart r; tlsDone := tlsDone r;
     serverStart := serverStart r; serverDone := serverDone r;
     transferStart := transferStart r; transferDone := transferDone r;
     isTLS := isTLS r; isReused := isReused r |}.

Definition set_contentTransfer (v : time.Duration) (r : Result) : Result :=
  {| NameLookup := NameLookup r; Connect := Connect r;
     PreTransfer := PreTransfer r; StartTransfer := StartTransfer r;
     total := total r; DNSLookup := DNSLookup r;
     TCPConnection := TCPConnection r; TLSHandshake := TLSHandshake r;
     ServerProcessing := ServerProcessing r; contentTransfer := v;
     localAddr := localAddr r; remoteAddr := remoteAddr r;
     dnsStart := dnsStart r; dnsDone := dnsDone r; tcpStart := tcpStart r;
     tcpDone := tcpDone r; tlsStart := tlsStart r; tlsDone := tlsDone r;
     serverStart := serverStart r; serverDone := serverDone r;
     transferStart := transferStart r; transferDone := transferDone r;
     isTLS := isTLS r; isReused := isReused r |}.

Definition set_localAddr (v : string) (r : Result) : Result :=
  {| NameLookup := NameLookup r; Connect := Connect r;
     PreTransfer := PreTransfer r; StartTransfer := StartTransfer r;
     total := total r; DNSLookup := DNSLookup r;
     TCPConnection := TCPConnection r; TLSHandshake := TLSHandshake r;
     ServerProcessing := ServerProcessing r;
     contentTransfer := contentTransfer r; localAddr := v;
     remoteAddr := remoteAddr r; dnsStart := dnsStart r;
     dnsDone := dnsDone r; tcpStart := tcpStart r; tcpDone := tcpDone r;
     tlsStart := tlsStart r; tlsDone := tlsDone r;
     serverStart := serverStart r; serverDone := serverDone r;
     transferStart := transferStart r; transferDone := transferDone r;
     isTLS := isTLS r; isReused := isReused r |}.

Definition set_remoteAddr (v : string) (r : Result) : Result :=
  {| NameLookup := NameLookup r; Connect := Connect r;
     PreTransfer := PreTransfer r; StartTransfer := StartTransfer r;
     total := total r; DNSLookup := DNSLookup r;
     TCPConnection := TCPConnection r; TLSHandshake := TLSHandshake r;
     ServerProcessing := ServerProcessing r;
     contentTransfer := contentTransfer r; localAddr := localAddr r;
     remoteAddr := v; dnsStart := dnsStart r; dnsDone := dnsDone r;
     tcpStart := tcpStart r; tcpDone := tcpDone r; tlsStart := tlsStart r;
     tlsDone := tlsDone r; serverStart := serverStart r;
     serverDone := serverDone r; transferStart := transferStart r;
     transferDone := transferDone r; isTLS := isTLS r;
     isReused := isReused r |}.

Definition set_dnsStart (v : time.Time) (r : Result) : Result :=
  {| NameLookup := NameLookup r; Connect := Connect r;
     PreTransfer := PreTransfer r; StartTransfer := StartTransfer r;
     total := total r; DNSLookup := DNSLookup r;
     TCPConnection := TCPConnection r; TLSHandshake := TLSHandshake r;
     ServerProcessing := ServerProcessing r;
     contentTransfer := contentTransfer r; localAddr := localAddr r;
     remoteAddr := remoteAddr r; dnsStart := v; dnsDone := dnsDone r;
     tcpStart := tcpStart r; tcpDone := tcpDone r; tlsStart := tlsStart r;
     tlsDone := tlsDone r; serverStart := serverStart r;
     serverDone := serverDone r; transferStart := transferStart r;
     transferDone := transferDone r; isTLS := isTLS r;
     isReused := isReused r |}.

Definition set_dnsDone (v : time.Time) (r : Result) : Result :=
  {| NameLookup := NameLookup r; Connect := Connect r;
     PreTransfer := PreTransfer r; StartTransfer := StartTransfer r;
     total := total r; DNSLookup := DNSLookup r;
     TCPConnection := TCPConnection r; TLSHandshake := TLSHandshake r;
     ServerProcessing := ServerProcessing r;
     contentTransfer := contentTransfer r; localAddr := localAddr r;
     remoteAddr := remoteAddr r; dnsStart := dnsStart r; dnsDone := v;
     tcpStart := tcpStart r; tcpDone := tcpDone r; tlsStart := tlsStart r;
     tlsDone := tlsDone r; serverStart := serverStart r;
     serverDone := serverDone r; transferStart := transferStart r;
     transferDone := transferDone r; isTLS := isTLS r;
     isReused := isReused r |}.

Definition set_tcpStart (v : time.Time) (r : Result) : Result :=
  {| NameLookup := NameLookup r; Connect := Connect r;
     PreTransfer := PreTransfer r; StartTransfer := StartTransfer r;
     total := total r; DNSLookup := DNSLookup r;
     TCPConnection := TCPConnection r; TLSHandshake := TLSHandshake r;
     ServerProcessing := ServerProcessing r;
     contentTransfer := contentTransfer r; localAddr := localAddr r;
     remoteAddr := remoteAddr r; dnsStart := dnsStart r;
     dnsDone := dnsDone r; tcpStart := v; tcpDone := tcpDone r;
     tlsStart := tlsStart r; tlsDone := tlsDone r;
     serverStart := serverStart r; serverDone := serverDone r;
     transferStart := transferStart r; transferDone := transferDone r;
     isTLS := isTLS r; isReused := isReused r |}.

Definition set_tcpDone (v : time.Time) (r : Result) : Result :=
  {| NameLookup := NameLookup r; Connect := Connect r;
     PreTransfer := PreTransfer r; StartTransfer := StartTransfer r;
     total := total r; DNSLookup := DNSLookup r;
     TCPConnection := TCPConnection r; TLSHandshake := TLSHandshake r;
     ServerProcessing := ServerProcessing r;
     contentTransfer := contentTransfer r; localAddr := localAddr r;
     remoteAddr := remoteAddr r; dnsStart := dnsStart r;
     dnsDone := dnsDone r; tcpStart := tcpStart r; tcpDone := v;
     tlsStart := tlsStart r; tlsDone := tlsDone r;
     serverStart := serverStart r; serverDone := serverDone r;
     transferStart := transferStart r; transferDone := transferDone r;
     isTLS := isTLS r; isReused := isReused r |}.

Definition set_tlsStart (v : time.Time) (r : Result) : Result :=
  {| NameLookup := NameLookup r; Connect := Connect r;
     PreTransfer := PreTransfer r; StartTransfer := StartTransfer r;
     total := total r; DNSLookup := DNSLookup r;
     TCPConnection := TCPConnection r; TLSHandshake := TLSHandshake r;
     ServerProcessing := ServerProcessing r;
     contentTransfer := contentTransfer r; localAddr := localAddr r;
     remoteAddr := remoteAddr r; dnsStart := dnsStart r;
     dnsDone := dnsDone r; tcpStart := tcpStart r; tcpDone := tcpDone r;
     tlsStart := v; tlsDone := tlsDone r; serverStart := serverStart r;
     serverDone := serverDone r; transferStart := transferStart r;
     transferDone := transferDone r; isTLS := isTLS r;
     isReused := isReused r |}.

Definition set_tlsDone (v : time.Time) (r : Result) : Result :=
  {| NameLookup := NameLookup r; Connect := Connect r;
     PreTransfer := PreTransfer r; StartTransfer := StartTransfer r;
     total := total r; DNSLookup := DNSLookup r;
     TCPConnection := TCPConnection r; TLSHandshake := TLSHandshake r;
     ServerProcessing := ServerProcessing r;
     contentTransfer := contentTransfer r; localAddr := localAddr r;
     remoteAddr := remoteAddr r; dnsStart := dnsStart r;
     dnsDone := dnsDone r; tcpStart := tcpStart r; tcpDone := tcpDone r;
     tlsStart := tlsStart r; tlsDone := v; serverStart := serverStart r;
     serverDone := serverDone r; transferStart := transferStart r;
     transferDone := transferDone r; isTLS := isTLS r;
     isReused := isReused r |}.

Definition set_serverStart (v : time.Time) (r : Result) : Result :=
  {| NameLookup := NameLookup r; Connect := Connect r;
     PreTransfer := PreTransfer r; StartTransfer := StartTransfer r;
     total := total r; DNSLookup := DNSLookup r;
     TCPConnection := TCPConnection r; TLSHandshake := TLSHandshake r;
     ServerProcessing := ServerProcessing r;
     contentTransfer := contentTransfer r; localAddr := localAddr r;
     remoteAddr := remoteAddr r; dnsStart := dnsStart r;
     dnsDone := dnsDone r; tcpStart := tcpStart r; tcpDone := tcpDone r;
     tlsStart := tlsStart r; tlsDone := tlsDone r; serverStart := v;
     serverDone := serverDone r; transferStart := transferStart r;
     transferDone := transferDone r; isTLS := isTLS r;
     isReused := isReused r |}.

Definition set_serverDone (v : time.Time) (r : Result) : Result :=
  {| NameLookup := NameLookup r; Connect := Connect r;
     PreTransfer := PreTransfer r; StartTransfer := StartTransfer r;
     total := total r; DNSLookup := DNSLookup r;
     TCPConnection := TCPConnection r; TLSHandshake := TLSHandshake r;
     ServerProcessing := ServerProcessing r;
     contentTransfer := contentTransfer r; localAddr := localAddr r;
     remoteAddr := remoteAddr r; dnsStart := dnsStart r;
     dnsDone := dnsDone r; tcpStart := tcpStart r; tcpDone := tcpDone r;
     tlsStart := tlsStart r; tlsDone := tlsDone r;
     serverStart := serverStart r; serverDone := v;
     transferStart := transferStart r; transferDone := transferDone r;
     isTLS := isTLS r; isReused := isReused r |}.

Definition set_transferStart (v : time.Time) (r : Result) : Result :=
  {| NameLookup := NameLookup r; Connect := Connect r;
     PreTransfer := PreTransfer r; StartTransfer := StartTransfer r;
     total := total r; DNSLookup := DNSLookup r;
     TCPConnection := TCPConnection r; TLSHandshake := TLSHandshake r;
     ServerProcessing := ServerProcessing r;
     contentTransfer := contentTransfer r; localAddr := localAddr r;
     remoteAddr := remoteAddr r; dnsStart := dnsStart r;
     dnsDone := dnsDone r; tcpStart := tcpStart r; tcpDone := tcpDone r;
     tlsStart := tlsStart r; tlsDone := tlsDone r;
     serverStart := serverStart r; serverDone := serverDone r;
     transferStart := v; transferDone := transferDone r; isTLS := isTLS r;
     isReused := isReused r |}.

Definition set_transferDone (v : time.Time) (r : Result) : Result :=
  {| NameLookup := NameLookup r; Connect := Connect r;
     PreTransfer := PreTransfer r; StartTransfer := StartTransfer r;
     total := total r; DNSLookup := DNSLookup r;
     TCPConnection := TCPConnection r; TLSHandshake := TLSHandshake r;
     ServerProcessing := ServerProcessing r;
     contentTransfer := contentTransfer r; localAddr := localAddr r;
     remoteAddr := remoteAddr r; dnsStart := dnsStart r;
     dnsDone := dnsDone r; tcpStart := tcpStart r; tcpDone := tcpDone r;
     tlsStart := tlsStart r; tlsDone := tlsDone r;
     serverStart := serverStart r; serverDone := serverDone r;
     transferStart := transferStart r; transferDone := v; isTLS := isTLS r;
     isReused := isReused r |}.

Definition set_isTLS (v : bool) (r : Result) : Result :=
  {| NameLookup := NameLookup r; Connect := Connect r;
     PreTransfer := PreTransfer r; StartTransfer := StartTransfer r;
     total := total r; DNSLookup := DNSLookup r;
     TCPConnection := TCPConnection r; TLSHandshake := TLSHandshake r;
     ServerProcessing := ServerProcessing r;
     contentTransfer := contentTransfer r; localAddr := localAddr r;
     remoteAddr := remoteAddr r; dnsStart := dnsStart r;
     dnsDone := dnsDone r; tcpStart := tcpStart r; tcpDone := tcpDone r;
     tlsStart := tlsStart r; tlsDone := tlsDone r;
     serverStart := serverStart r; serverDone := serverDone r;
     transferStart := transferStart r; transferDone := transferDone r;
     isTLS := v; isReused := isReused r |}.

Definition set_isReused (v : bool) (r : Result) : Result :=
  {| NameLookup := NameLookup r; Connect := Connect r;
     PreTransfer := PreTransfer r; StartTransfer := StartTransfer r;
     total := total r; DNSLookup := DNSLookup r;
     TCPConnection := TCPConnection r; TLSHandshake := TLSHandshake r;
     ServerProcessing := ServerProcessing r;
     contentTransfer := contentTransfer r; localAddr := localAddr r;
     remoteAddr := remoteAddr r; dnsStart := dnsStart r;
     dnsDone := dnsDone r; tcpStart := tcpStart r; tcpDone := tcpDone r;
     tlsStart := tlsStart r; tlsDone := tlsDone r;
     serverStart := serverStart r; serverDone := serverDone r;
     transferStart := transferStart r; transferDone := transferDone r;
     isTLS := isTLS r; isReused := v |}.

(** [net.Conn], as far as the hooks look at it, and [httptrace.GotConnInfo]. *)
Record Conn : Type := mkConn {
  LocalAddr : option string;
  RemoteAddr : option string
}.

Record GotConnInfo : Type := mkGotConnInfo {
  conn : Conn;
  Reused : bool
}.

(** The hooks that [WithHTTPStat] registers, each as the update of [r] it
    performs when the transport calls it at instant [now]. *)

Definition DNSStart (now : time.Time) (r : Result) : Result :=
  set_dnsStart now r.

Definition DNSDone (now : time.Time) (r : Result) : Result :=
  let r := set_dnsDone now r in
  let r := set_DNSLookup (time.Sub (dnsDone r) (dnsStart r)) r in
  set_NameLookup (DNSLookup r) r.

Definition ConnectStart (now : time.Time) (r : Result) : Result :=
  let r := set_tcpStart now r in
  (* When connecting to IP (When no DNS lookup) *)
  if time.IsZero (dnsStart r) then
    let r := set_dnsStart (tcpStart r) r in
    set_dnsDone (tcpStart r) r
  else r.

Definition ConnectDone (now : time.Time) (r : Result) : Result :=
  let r := set_tcpDone now r in
  let r := set_TCPConnection (time.Sub (tcpDone r) (tcpStart r)) r in
  set_Connect (time.Sub (tcpDone r) (dnsStart r)) r.

Definition TLSHandshakeStart (now : time.Time) (r : Result) : Result :=
  let r := set_isTLS true r in
  set_tlsStart now r.

Definition TLSHandshakeDone (now : time.Time) (r : Result) : Result :=
  let r := set_tlsDone now r in
  let r := set_TLSHandshake (time.Sub (tlsDone r) (tlsStart r)) r in
  set_PreTransfer (time.Sub (tlsDone r) (dnsStart r)) r.

(** [a.String()] for an address [a] that may be the nil interface, and
    [l[0]] for a slice [l]. *)
Definition addrString (a : option string) : option string := a.
Definition index0 (l : list string) : option string := nth_error l 0.

Definition GotConn (i : GotConnInfo) (r : Result) : option Result :=
  let r := if Reused i then set_isReused true r else r in
  la <- addrString (LocalAddr (conn i)) ;;
  l <- index0 (strings.Split la ":") ;;
  let r := set_localAddr l r in
  ra <- addrString (RemoteAddr (conn i)) ;;
  l <- index0 (strings.Split ra ":") ;;
  Some (set_remoteAddr l r).

Definition WroteRequest (now : time.Time) (r : Result) : Result :=
  let r := set_serverStart now r in
  (* DNS/TCP/TLS hook is not called *)
  let r :=
    if time.IsZero (dnsStart r) && time.IsZero (tcpStart r) then
      let now := serverStart r in
      let r := set_dnsStart now r in
      let r := set_dnsDone now r in
      let r := set_tcpStart now r in
      set_tcpDone now r
    else r in
  (* When connection is re-used, DNS/TCP/TLS hook is not called. *)
  let r :=
    if isReused r then
      let now := serverStart r in
      let r := set_dnsStart now r in
      let r := set_dnsDone now r in
      let r := set_tcpStart now r in
      let r := set_tcpDone now r in
      let r := set_tlsStart now r in
      set_tlsDone now r
    else r in
  if isTLS r then r
  else
    let r := set_TLSHandshake (time.Sub (tcpDone r) (tcpDone r)) r in
    set_PreTransfer (Connect r) r.

Definition GotFirstResponseByte (now : time.Time) (r : Result) : Result :=
  let r := set_serverDone now r in
  let r := set_ServerProcessing (time.Sub (serverDone r) (serverStart r)) r in
  let r := set_StartTransfer (time.Sub (serverDone r) (dnsStart r)) r in
  set_transferStart (serverDone r) r.

Definition LocalIp (r : Result) : string := localAddr r.

Definition RemoteIP (r : Result) : string := localAddr r.

(** [End] sets the time when reading the response is done. *)
Definition End (t : time.Time) (r : Result) : Result :=
  let r := set_transferDone t r in
  (* This means result is empty (it does nothing). *)
  if time.IsZero (dnsStart r) then r
  else
    let r := set_contentTransfer (time.Sub (transferDone r) (transferStart r)) r in
    set_total (time.Sub (transferDone r) (dnsStart r)) r.

Definition ContentTransfer (t : time.Time) (r : Result) : time.Duration :=
  time.Sub t (serverDone r).

Definition Total (t : time.Time) (r : Result) : time.Duration :=
  time.Sub t (dnsStart r).

(** [time.Millisecond], and the conversion [int(d / time.Millisecond)]:
    integer division truncates toward zero, and an [int] holds every
    quotient (64-bit platform). *)
Definition Millisecond : time.Duration := 1000000.
Definition ms (d : time.Duration) : Z := Z.quot d Millisecond.

(** A [map[string]time.Duration] literal, as its entries; [m[k]] is the
    zero duration for a key that is missing. *)
Definition mapIndex (m : list (string * time.Duration)) (k : string)
  : time.Duration :=
  match find (fun e => String.eqb (fst e) k) m with
  | Some e => snd e
  | None => 0
  end.

Definition durations (r : Result) : list (string * time.Duration) :=
  [ ("DNSLookup", DNSLookup r);
    ("TCPConnection", TCPConnection r);
    ("TLSHandshake", TLSHandshake r);
    ("ServerProcessing", ServerProcessing r);
    ("ContentTransfer", contentTransfer r);

    ("NameLookup", NameLookup r);
    ("Connect", Connect r);
    ("PreTransfer", Connect r);
    ("StartTransfer", StartTransfer r);
    ("Total", total r) ]%string.

(** [Format] formats the result: what it writes to [s]. *)
Definition Format (r : Result) : string :=
  let buf := EmptyString in
  let buf := fmt.Fprintf buf "DNS lookup:        %4d ms\n"
               (fmt.Int (ms (DNSLookup r))) in
  let buf := fmt.Fprintf buf "TCP connection:    %4d ms\n"
               (fmt.Int (ms (TCPConnection r))) in
  let buf := fmt.Fprintf buf "TLS handshake:     %4d ms\n"
               (fmt.Int (ms (TLSHandshake r))) in
  let buf := fmt.Fprintf buf "Server processing: %4d ms\n"
               (fmt.Int (ms (ServerProcessing r))) in
  let buf :=
    if 0 <? total r then
      fmt.Fprintf buf "Content transfer:  %4d ms\n\n"
        (fmt.Int (ms (contentTransfer r)))
    else
      fmt.Fprintf buf "Content transfer:  %4s ms\n\n" (fmt.Str "-") in
  let buf := fmt.Fprintf buf "Name Lookup:    %4d ms\n"
               (fmt.Int (ms (NameLookup r))) in
  let buf := fmt.Fprintf buf "Connect:        %4d ms\n"
               (fmt.Int (ms (Connect r))) in
  let buf := fmt.Fprintf buf "Pre Transfer:   %4d ms\n"
               (fmt.Int (ms (PreTransfer r))) in
  let buf := fmt.Fprintf buf "Start Transfer: %4d ms\n"
               (fmt.Int (ms (StartTransfer r))) in
  let buf :=
    if 0 <? total r then
      fmt.Fprintf buf "Total:          %4d ms\n" (fmt.Int (ms (total r)))
    else
      fmt.Fprintf buf "Total:          %4s ms\n" (fmt.Str "-") in
  buf.

(** A duration that [Format] prints in the four columns of [%4d]: more than
    minus one second and less than ten seconds. *)
Definition printsInFour (d : time.Duration) : Prop :=
  - 1000 * Millisecond < d < 10000 * Millisecond.

(** ** Requests as sequences of events

    What happens to one measurement object: the transport fires hooks, each
    at the instant its [time.Now()] reads, and the caller calls [End]. *)

Inductive Event : Type :=
| EvDNSStart (now : time.Time)
| EvDNSDone (now : time.Time)
| EvConnectStart (now : time.Time)
| EvConnectDone (now : time.Time)
| EvTLSHandshakeStart (now : time.Time)
| EvTLSHandshakeDone (now : time.Time)
| EvGotConn (now : time.Time) (i : GotConnInfo)
| EvWroteRequest (now : time.Time)
| EvGotFirstResponseByte (now : time.Time)
| EvEnd (t : time.Time).

Definition fire (e : Event) (r : Result) : option Result :=
  match e with
  | EvDNSStart now => Some (DNSStart now r)
  | EvDNSDone now => Some (DNSDone now r)
  | EvConnectStart now => Some (ConnectStart now r)
  | EvConnectDone now => Some (ConnectDone now r)
  | EvTLSHandshakeStart now => Some (TLSHandshakeStart now r)
  | EvTLSHandshakeDone now => Some (TLSHandshakeDone now r)
  | EvGotConn _ i => GotConn i r
  | EvWroteRequest now => Some (WroteRequest now r)
  | EvGotFirstResponseByte now => Some (GotFirstResponseByte now r)
  | EvEnd t => Some (End t r)
  end.

Fixpoint run (es : list Event) (r : Result) : option Result :=
  match es with
  | [] => Some r
  | e :: es' => r' <- fire e r ;; run es' r'
  end.

(** Which hook (or [End]) an event is, and whether one has fired in a
    sequence. *)
Inductive Hook : Type :=
| HDNSStart | HDNSDone | HConnectStart | HConnectDone
| HTLSHandshakeStart | HTLSHandshakeDone | HGotConn
| HWroteRequest | HGotFirstResponseByte | HEnd.

Definition hookOf (e : Event) : Hook :=
  match e with
  | EvDNSStart _ => HDNSStart
  | EvDNSDone _ => HDNSDone
  | EvConnectStart _ => HConnectStart
  | EvConnectDone _ => HConnectDone
  | EvTLSHandshakeStart _ => HTLSHandshakeStart
  | EvTLSHandshakeDone _ => HTLSHandshakeDone
  | EvGotConn _ _ => HGotConn
  | EvWroteRequest _ => HWroteRequest
  | EvGotFirstResponseByte _ => HGotFirstResponseByte
  | EvEnd _ => HEnd
  end.

Definition Hook_eqb (a b : Hook) : bool :=
  match a, b with
  | HDNSStart, HDNSStart | HDNSDone, HDNSDone
  | HConnectStart, HConnectStart | HConnectDone, HConnectDone
  | HTLSHandshakeStart, HTLSHandshakeStart
  | HTLSHandshakeDone, HTLSHandshakeDone | HGotConn, HGotConn
  | HWroteRequest, HWroteRequest
  | HGotFirstResponseByte, HGotFirstResponseByte | HEnd, HEnd => true
  | _, _ => false
  end.

Definition isHook (h : Hook) (e : Event) : bool := Hook_eqb (hookOf e) h.

Definition fired (h : Hook) (es : list Event) : bool := existsb (isHook h) es.

(** A connection whose two addresses are there. *)
Definition connected (la ra : string) (reused : bool) : GotConnInfo :=
  {| conn := {| LocalAddr := Some la; RemoteAddr := Some ra |};
     Reused := reused |}.

(** No [EvGotConn] of the sequence has a nil address. *)
Definition addressed (e : Event) : bool :=
  match e with
  | EvGotConn _ i =>
      match LocalAddr (conn i), RemoteAddr (conn i) with
      | Some _, Some _ => true
      | _, _ => false
      end
  | _ => true
  end.

(** A connection-acquired event that reports reuse. *)
Definition reusedConn (e : Event) : bool :=
  match e with
  | EvGotConn _ i => Reused i
  | _ => false
  end.

(** The instant of an event, and sequences whose instants do not decrease
    from [t] on. *)
Definition instant (e : Event) : time.Time :=
  match e with
  | EvDNSStart now | EvDNSDone now | EvConnectStart now | EvConnectDone now
  | EvTLSHandshakeStart now | EvTLSHandshakeDone now | EvGotConn now _
  | EvWroteRequest now | EvGotFirstResponseByte now | EvEnd now => now
  end.

Fixpoint ordered (t : time.Time) (es : list Event) : bool :=
  match es with
  | [] => true
  | e :: es' => (t <=? instant e) && ordered (instant e) es'
  end.


(** ** The older revision *)

Module Old.

Record Result : Type := mkResult {
  NameLookup : time.Duration;
  Connect : time.Duration;
  PreTransfer : time.Duration;
  StartTransfer : time.Duration;
  total : time.Duration;

  localAddr : string;
  remoteAddr : string;
  start : time.Time;        (* the zero time for the request *)
  transferDone : time.Time  (* need to be provided from outside *)
}.

Definition zeroResult : Result :=
  {| NameLookup := 0; Connect := 0; PreTransfer := 0; StartTransfer := 0;
     total := 0; localAddr := ""; remoteAddr := "";
     start := 0; transferDone := 0 |}.

Definition set_NameLookup (v : time.Duration) (r : Result) : Result :=
  {| NameLookup := v; Connect := Connect r; PreTransfer := PreTransfer r;
     StartTransfer := StartTransfer r; total := total r;
     localAddr := localAddr r; remoteAddr := remoteAddr r;
     start := start r; transferDone := transferDone r |}.

Definition set_Connect (v : time.Duration) (r : Result) : Result :=
  {| NameLookup := NameLookup r; Connect := v;
     PreTransfer := PreTransfer r; StartTransfer := StartTransfer r;
     total := total r; localAddr := localAddr r;
     remoteAddr := remoteAddr r; start := start r;
     transferDone := transferDone r |}.

Definition set_PreTransfer (v : time.Duration) (r : Result) : Result :=
  {| NameLookup := NameLookup r; Connect := Connect r; PreTransfer := v;
     StartTransfer := StartTransfer r; total := total r;
     localAddr := localAddr r; remoteAddr := remoteAddr r;
     start := start r; transferDone := transferDone r |}.

Definition set_StartTransfer (v : time.Duration) (r : Result) : Result :=
  {| NameLookup := NameLookup r; Connect := Connect r;
     PreTransfer := PreTransfer r; StartTransfer := v; total := total r;
     localAddr := localAddr r; remoteAddr := remoteAddr r;
     start := start r; transferDone := transferDone r |}.

Definition set_total (v : time.Duration) (r : Result) : Result :=
  {| NameLookup := NameLookup r; Connect := Connect r;
     PreTransfer := PreTransfer r; StartTransfer := StartTransfer r;
     total := v; localAddr := localAddr r; remoteAddr := remoteAddr r;
     start := start r; transferDone := transferDone r |}.

Definition set_localAddr (v : string) (r : Result) : Result :=
  {| NameLookup := NameLookup r; Connect := Connect r;
     PreTransfer := PreTransfer r; StartTransfer := StartTransfer r;
     total := total r; localAddr := v; remoteAddr := remoteAddr r;
     start := start r; transferDone := transferDone r |}.

Definition set_remoteAddr (v : string) (r : Result) : Result :=
  {| NameLookup := NameLookup r; Connect := Connect r;
     PreTransfer := PreTransfer r; StartTransfer := StartTransfer r;
     total := total r; localAddr := localAddr r; remoteAddr := v;
     start := start r; transferDone := transferDone r |}.

Definition set_start (v : time.Time) (r : Result) : Result :=
  {| NameLookup := NameLookup r; Connect := Connect r;
     PreTransfer := PreTransfer r; StartTransfer := StartTransfer r;
     total := total r; localAddr := localAddr r;
     remoteAddr := remoteAddr r; start := v; transferDone := transferDone r |}.

Definition set_transferDone (v : time.Time) (r : Result) : Result :=
  {| NameLookup := NameLookup r; Connect := Connect r;
     PreTransfer := PreTransfer r; StartTransfer := StartTransfer r;
     total := total r; localAddr := localAddr r;
     remoteAddr := remoteAddr r; start := start r; transferDone := v |}.

(** What the closures of one [WithHTTPStat] call share: the result [r]
    they were given and the variables of the enclosing function. *)
Record Recorder : Type := mkRecorder {
  r : Result;
  dnsStart : time.Time;
  dnsDone : time.Time;
  tcpStart : time.Time;
  tcpDone : time.Time;
  tlsDone : time.Time;
  serverStart : time.Time;
  serverDone : time.Time;
  isTLS : bool;
  isReused : bool
}.

Definition WithHTTPStat (res : Result) : Recorder :=
  {| r := res; dnsStart := 0; dnsDone := 0; tcpStart := 0; tcpDone := 0;
     tlsDone := 0; serverStart := 0; serverDone := 0;
     isTLS := false; isReused := false |}.

Definition set_r (v : Result) (s : Recorder) : Recorder :=
  {| r := v; dnsStart := dnsStart s; dnsDone := dnsDone s;
     tcpStart := tcpStart s; tcpDone := tcpDone s; tlsDone := tlsDone s;
     serverStart := serverStart s; serverDone := serverDone s;
     isTLS := isTLS s; isReused := isReused s |}.

Definition set_dnsStart (v : time.Time) (s : Recorder) : Recorder :=
  {| r := r s; dnsStart := v; dnsDone := dnsDone s;
     tcpStart := tcpStart s; tcpDone := tcpDone s; tlsDone := tlsDone s;
     serverStart := serverStart s; serverDone := serverDone s;
     isTLS := isTLS s; isReused := isReused s |}.

Definition set_dnsDone (v : time.Time) (s : Recorder) : Recorder :=
  {| r := r s; dnsStart := dnsStart s; dnsDone := v;
     tcpStart := tcpStart s; tcpDone := tcpDone s; tlsDone := tlsDone s;
     serverStart := serverStart s; serverDone := serverDone s;
     isTLS := isTLS s; isReused := isReused s |}.

Definition set_tcpStart (v : time.Time) (s : Recorder) : Recorder :=
  {| r := r s; dnsStart := dnsStart s; dnsDone := dnsDone s;
     tcpStart := v; tcpDone := tcpDone s; tlsDone := tlsDone s;
     serverStart := serverStart s; serverDone := serverDone s;
     isTLS := isTLS s; isReused := isReused s |}.

Definition set_tcpDone (v : time.Time) (s : Recorder) : Recorder :=
  {| r := r s; dnsStart := dnsStart s; dnsDone := dnsDone s;
     tcpStart := tcpStart s; tcpDone := v; tlsDone := tlsDone s;
     serverStart := serverStart s; serverDone := serverDone s;
     isTLS := isTLS s; isReused := isReused s |}.

Definition set_tlsDone (v : time.Time) (s : Recorder) : Recorder :=
  {| r := r s; dnsStart := dnsStart s; dnsDone := dnsDone s;
     tcpStart := tcpStart s; tcpDone := tcpDone s; tlsDone := v;
     serverStart := serverStart s; serverDone := serverDone s;
     isTLS := isTLS s; isReused := isReused s |}.

Definition set_serverStart (v : time.Time) (s : Recorder) : Recorder :=
  {| r := r s; dnsStart := dnsStart s; dnsDone := dnsDone s;
     tcpStart := tcpStart s; tcpDone := tcpDone s; tlsDone := tlsDone s;
     serverStart := v; serverDone := serverDone s; isTLS := isTLS s;
     isReused := isReused s |}.

Definition set_serverDone (v : time.Time) (s : Recorder) : Recorder :=
  {| r := r s; dnsStart := dnsStart s; dnsDone := dnsDone s;
     tcpStart := tcpStart s; tcpDone := tcpDone s; tlsDone := tlsDone s;
     serverStart := serverStart s; serverDone := v; isTLS := isTLS s;
     isReused := isReused s |}.

Definition set_isTLS (v : bool) (s : Recorder) : Recorder :=
  {| r := r s; dnsStart := dnsStart s; dnsDone := dnsDone s;
     tcpStart := tcpStart s; tcpDone := tcpDone s; tlsDone := tlsDone s;
     serverStart := serverStart s; serverDone := serverDone s;
     isTLS := v; isReused := isReused s |}.

Definition set_isReused (v : bool) (s : Recorder) : Recorder :=
  {| r := r s; dnsStart := dnsStart s; dnsDone := dnsDone s;
     tcpStart := tcpStart s; tcpDone := tcpDone s; tlsDone := tlsDone s;
     serverStart := serverStart s; serverDone := serverDone s;
     isTLS := isTLS s; isReused := v |}.

Definition DNSStart (now : time.Time) (s : Recorder) : Recorder :=
  let s := set_dnsStart now s in
  if time.IsZero (start (r s)) then set_r (set_start (dnsStart s) (r s)) s
  else s.

Definition DNSDone (now : time.Time) (s : Recorder) : Recorder :=
  let s := set_dnsDone now s in
  set_r (set_NameLookup
           (time.add (NameLookup (r s)) (time.Sub (dnsDone s) (dnsStart s)))
           (r s)) s.

Definition ConnectStart (now : time.Time) (s : Recorder) : Recorder :=
  let s := set_tcpStart now s in
  (* When connecting to IP (When no DNS lookup) *)
  let s :=
    if time.IsZero (dnsStart s) then
      let s := set_dnsStart (tcpStart s) s in
      set_dnsDone (tcpStart s) s
    else s in
  if time.IsZero (start (r s)) then set_r (set_start (tcpStart s) (r s)) s
  else s.

Definition ConnectDone (now : time.Time) (s : Recorder) : Recorder :=
  let s := set_tcpDone now s in
  set_r (set_Connect
           (time.add (Connect (r s)) (time.Sub (tcpDone s) (dnsStart s)))
           (r s)) s.

Definition TLSHandshakeStart (s : Recorder) : Recorder :=
  set_isTLS true s.

Definition TLSHandshakeDone (now : time.Time) (s : Recorder) : Recorder :=
  let s := set_tlsDone now s in
  set_r (set_PreTransfer
           (time.add (PreTransfer (r s)) (time.Sub (tlsDone s) (dnsStart s)))
           (r s)) s.

Definition GotConn (now : time.Time) (i : GotConnInfo) (s : Recorder)
  : option Recorder :=
  let gotC := now in
  let s :=
    if Reused i then
      let s := set_isReused true s in
      let s :=
        if time.IsZero (dnsStart s) then
          let s := set_dnsStart gotC s in
          set_dnsDone gotC s
        else s in
      if time.IsZero (start (r s)) then set_r (set_start gotC (r s)) s
      else s
    else s in
  s <- match LocalAddr (conn i) with
       | Some la =>
           l <- index0 (strings.Split la ":") ;;
           Some (set_r (set_localAddr l (r s)) s)
       | None => Some s
       end ;;
  match RemoteAddr (conn i) with
  | Some ra =>
      l <- index0 (strings.Split ra ":") ;;
      Some (set_r (set_remoteAddr l (r s)) s)
  | None => Some s
  end.

Definition WroteRequest (now : time.Time) (s : Recorder) : Recorder :=
  let s := set_serverStart now s in
  (* DNS/TCP/TLS hook is not called *)
  let s :=
    if time.IsZero (dnsStart s) && time.IsZero (tcpStart s) then
      let now := serverStart s in
      let s := set_dnsStart now s in
      let s := set_dnsDone now s in
      let s := set_tcpStart now s in
      set_tcpDone now s
    else s in
  (* When connection is re-used, DNS/TCP/TLS hook is not called. *)
  let s :=
    if isReused s then
      let now := serverStart s in
      let s := set_dnsStart now s in
      let s := set_dnsDone now s in
      let s := set_tcpStart now s in
      let s := set_tcpDone now s in
      set_tlsDone now s
    else s in
  if isTLS s then s
  else
    set_r (set_PreTransfer
             (time.add (PreTransfer (r s)) (Connect (r s))) (r s)) s.

Definition GotFirstResponseByte (now : time.Time) (s : Recorder) : Recorder :=
  let s := set_serverDone now s in
  set_r (set_StartTransfer
           (time.add (StartTransfer (r s))
              (time.Sub (serverDone s) (dnsStart s)))
           (r s)) s.

Definition LocalIp (r : Result) : string := localAddr r.

Definition RemoteIP (r : Result) : string := remoteAddr r.

(** [End] sets the time when reading the response is done. *)
Definition End (t : time.Time) (r : Result) : Result :=
  let r := set_transferDone t r in
  (* This means result is empty (it does nothing). *)
  if time.IsZero (start r) then r
  else set_total (time.Sub (transferDone r) (start r)) r.

Definition Total (t : time.Time) (r : Result) : time.Duration :=
  if total r =? 0 then time.Sub t (start r) else total r.

(** [Format] formats the result: what it writes to [s]. *)
Definition Format (r : Result) : string :=
  let buf := EmptyString in
  let buf := fmt.Fprintf buf "Name Lookup:    %4d ms\n"
               (fmt.Int (ms (NameLookup r))) in
  let buf := fmt.Fprintf buf "Connect:        %4d ms\n"
               (fmt.Int (ms (Connect r))) in
  let buf := fmt.Fprintf buf "Pre Transfer:   %4d ms\n"
               (fmt.Int (ms (PreTransfer r))) in
  let buf := fmt.Fprintf buf "Start Transfer: %4d ms\n"
               (fmt.Int (ms (StartTransfer r))) in
  let buf :=
    if 0 <? total r then
      fmt.Fprintf buf "Total:          %4d ms\n" (fmt.Int (ms (total r)))
    else
      fmt.Fprintf buf "Total:          %4s ms\n" (fmt.Str "-") in
  buf.

Definition fire (e : Event) (s : Recorder) : option Recorder :=
  match e with
  | EvDNSStart now => Some (DNSStart now s)
  | EvDNSDone now => Some (DNSDone now s)
  | EvConnectStart now => Some (ConnectStart now s)
  | EvConnectDone now => Some (ConnectDone now s)
  | EvTLSHandshakeStart _ => Some (TLSHandshakeStart s)
  | EvTLSHandshakeDone now => Some (TLSHandshakeDone now s)
  | EvGotConn now i => GotConn now i s
  | EvWroteRequest now => Some (WroteRequest now s)
  | EvGotFirstResponseByte now => Some (GotFirstResponseByte now s)
  | EvEnd t => Some (set_r (End t (r s)) s)
  end.

Fixpoint run (es : list Event) (s : Recorder) : option Recorder :=
  match es with
  | [] => Some s
  | e :: es' => s' <- fire e s ;; run es' s'
  end.

End Old.

(** * Properties *)

(** ** Arithmetic of instants and durations *)

Section TimeFacts.

Import time.

Lemma Sub_inRange (t u : Time) : inRange (Sub t u).
Proof.
  unfold inRange, Sub, minDuration, maxDuration.
  destruct (Z.ltb_spec (t - u) (- 2 ^ 63)); [lia |].
  destruct (Z.ltb_spec (2 ^ 63 - 1) (t - u)); lia.
Qed.

Lemma Sub_exact (t u : Time) :
  minDuration <= t - u <= maxDuration -> Sub t u = t - u.
Proof.
  unfold Sub, minDuration, maxDuration. intros H.
  destruct (Z.ltb_spec (t - u) (- 2 ^ 63)); [lia |].
  destruct (Z.ltb_spec (2 ^ 63 - 1) (t - u)); lia.
Qed.

Lemma Sub_diag (t : Time) : Sub t t = 0.
Proof.
  apply eq_trans with (t - t); [apply Sub_exact |];
    unfold minDuration, maxDuration; lia.
Qed.

Lemma Sub_nonneg (t u : Time) : u <= t -> 0 <= Sub t u.
Proof.
  unfold Sub, minDuration, maxDuration. intros H.
  destruct (Z.ltb_spec (t - u) (- 2 ^ 63)); [lia |].
  destruct (Z.ltb_spec (2 ^ 63 - 1) (t - u)); lia.
Qed.

(** Saturation keeps the order of the ends and reverses that of the
    starts. *)
Lemma Sub_mono (t t' u u' : Time) :
  t <= t' -> u' <= u -> Sub t u <= Sub t' u'.
Proof.
  unfold Sub, minDuration, maxDuration. intros Ht Hu.
  destruct (Z.ltb_spec (t - u) (- 2 ^ 63));
    destruct (Z.ltb_spec (t' - u') (- 2 ^ 63));
    destruct (Z.ltb_spec (2 ^ 63 - 1) (t - u));
    destruct (Z.ltb_spec (2 ^ 63 - 1) (t' - u')); lia.
Qed.

Lemma add_0_l (d : Duration) : inRange d -> add 0 d = d.
Proof.
  unfold inRange, add, wrap, minDuration, maxDuration. intros H.
  rewrite Z.add_0_l, Z.mod_small; lia.
Qed.

End TimeFacts.

Arguments time.Sub : simpl never.
Arguments time.IsZero : simpl never.
Arguments time.add : simpl never.

(** ** Symbolic execution of the hooks *)

(** Run the hooks on a record whose fields are known.  [IsZero] is computed
    too: an instant it tests must be [0], [Z.pos p] or [Z.neg p], which a
    case analysis on that instant provides. *)
Ltac exec_new :=
  cbv beta iota zeta delta
    [run fire bind addrString connected
     DNSStart DNSDone ConnectStart ConnectDone TLSHandshakeStart
     TLSHandshakeDone GotConn WroteRequest GotFirstResponseByte End
     Total ContentTransfer LocalIp RemoteIP zeroResult
     set_NameLookup set_Connect set_PreTransfer set_StartTransfer set_total
     set_DNSLookup set_TCPConnection set_TLSHandshake set_ServerProcessing
     set_contentTransfer set_localAddr set_remoteAddr set_dnsStart
     set_dnsDone set_tcpStart set_tcpDone set_tlsStart set_tlsDone
     set_serverStart set_serverDone set_transferStart set_transferDone
     set_isTLS set_isReused
     NameLookup Connect PreTransfer StartTransfer total DNSLookup
     TCPConnection TLSHandshake ServerProcessing contentTransfer localAddr
     remoteAddr dnsStart dnsDone tcpStart tcpDone tlsStart tlsDone
     serverStart serverDone transferStart transferDone isTLS isReused
     conn Reused LocalAddr RemoteAddr andb time.IsZero Z.eqb].

(** An instant that is set is [Z.pos p] or [Z.neg p]. *)
Ltac set_instant t :=
  let p := fresh "p" in
  destruct t as [| p | p]; [ congruence | | ].

(** ** The instrumented request *)

(** C1. For the well-formed sequence DNS-start, DNS-done, Connect-start,
    Connect-done, TLS-start, TLS-done, Request-written, First-response-byte,
    End, fired at set instants that do not decrease, the hooks and [End] run
    to a result in which every phase duration (DNSLookup, TCPConnection,
    TLSHandshake, ServerProcessing, ContentTransfer) is at least zero and
    NameLookup <= Connect <= PreTransfer <= StartTransfer <= Total. *)
Theorem wellformed_durations_ordered :
  forall t1 t2 t3 t4 t5 t6 t7 t8 t9 : time.Time,
    t1 <> 0 -> t1 <= t2 -> t2 <= t3 -> t3 <= t4 -> t4 <= t5 -> t5 <= t6 ->
    t6 <= t7 -> t7 <= t8 -> t8 <= t9 ->
    exists r,
      run [EvDNSStart t1; EvDNSDone t2; EvConnectStart t3; EvConnectDone t4;
           EvTLSHandshakeStart t5; EvTLSHandshakeDone t6; EvWroteRequest t7;
           EvGotFirstResponseByte t8; EvEnd t9] zeroResult = Some r /\
      0 <= DNSLookup r /\ 0 <= TCPConnection r /\ 0 <= TLSHandshake r /\
      0 <= ServerProcessing r /\ 0 <= contentTransfer r /\
      NameLookup r <= Connect r /\ Connect r <= PreTransfer r /\
      PreTransfer r <= StartTransfer r /\ StartTransfer r <= total r.
Proof.
  intros t1 t2 t3 t4 t5 t6 t7 t8 t9 Hset H12 H23 H34 H45 H56 H67 H78 H89.
  set_instant t1;
    (eexists; split; [reflexivity |]); exec_new;
    repeat split;
    solve [ apply Sub_nonneg; lia | apply Sub_mono; lia ].
Qed.

Lemma wellformed_durations_ordered_witness :
  exists r,
    run [EvDNSStart 100; EvDNSDone 200; EvConnectStart 300; EvConnectDone 400;
         EvTLSHandshakeStart 500; EvTLSHandshakeDone 600; EvWroteRequest 700;
         EvGotFirstResponseByte 800; EvEnd 900] zeroResult = Some r /\
    0 <= DNSLookup r /\ 0 <= TCPConnection r /\ 0 <= TLSHandshake r /\
    0 <= ServerProcessing r /\ 0 <= contentTransfer r /\
    NameLookup r <= Connect r /\ Connect r <= PreTransfer r /\
    PreTransfer r <= StartTransfer r /\ StartTransfer r <= total r.
Proof.
  apply (wellformed_durations_ordered 100 200 300 400 500 600 700 800 900);
    lia.
Defined.

(** C4. In the sequence Connect-start, Connect-done, Request-written,
    First-byte, End with no DNS event, Connect-start leaves
    dnsStart = dnsDone = tcpStart, and at the end DNSLookup = 0 and
    Connect = TCPConnection. *)
Theorem no_dns_dial :
  forall t1 t2 t3 t4 t5 : time.Time,
    (exists r1,
        run [EvConnectStart t1] zeroResult = Some r1 /\
        tcpStart r1 = t1 /\ dnsStart r1 = tcpStart r1 /\
        dnsDone r1 = tcpStart r1) /\
    (exists r,
        run [EvConnectStart t1; EvConnectDone t2; EvWroteRequest t3;
             EvGotFirstResponseByte t4; EvEnd t5] zeroResult = Some r /\
        DNSLookup r = 0 /\ Connect r = TCPConnection r).
Proof.
  intros t1 t2 t3 t4 t5. split.
  - eexists; split; [reflexivity |]. exec_new. auto.
  - destruct t1 as [| p1 | p1]; destruct t3 as [| p3 | p3];
      (eexists; split; [reflexivity |]); exec_new; auto.
Qed.

(** C6. After the TLS sequence DNS-start, DNS-done, Connect-start,
    Connect-done, TLS-start, TLS-done, Request-written, First-byte (DNS-start
    at a set instant, TLS-done not before Connect-done):
    ServerProcessing = serverDone - serverStart,
    StartTransfer = serverDone - dnsStart, transferStart = serverDone,
    PreTransfer = tlsDone - dnsStart and PreTransfer >= Connect, where the
    instants are those of the events. *)
Theorem tls_path :
  forall t1 t2 t3 t4 t5 t6 t7 t8 : time.Time,
    t1 <> 0 -> t4 <= t6 ->
    exists r,
      run [EvDNSStart t1; EvDNSDone t2; EvConnectStart t3; EvConnectDone t4;
           EvTLSHandshakeStart t5; EvTLSHandshakeDone t6; EvWroteRequest t7;
           EvGotFirstResponseByte t8] zeroResult = Some r /\
      dnsStart r = t1 /\ tlsDone r = t6 /\ serverStart r = t7 /\
      serverDone r = t8 /\
      ServerProcessing r = time.Sub (serverDone r) (serverStart r) /\
      StartTransfer r = time.Sub (serverDone r) (dnsStart r) /\
      transferStart r = serverDone r /\
      PreTransfer r = time.Sub (tlsDone r) (dnsStart r) /\
      Connect r <= PreTransfer r.
Proof.
  intros t1 t2 t3 t4 t5 t6 t7 t8 Hset H46.
  set_instant t1;
    (eexists; split; [reflexivity |]); exec_new;
    repeat split; apply Sub_mono; lia.
Qed.

Lemma tls_path_witness :
  exists r,
    run [EvDNSStart 100; EvDNSDone 200; EvConnectStart 300; EvConnectDone 400;
         EvTLSHandshakeStart 500; EvTLSHandshakeDone 600; EvWroteRequest 700;
         EvGotFirstResponseByte 800] zeroResult = Some r /\
    dnsStart r = 100 /\ tlsDone r = 600 /\ serverStart r = 700 /\
    serverDone r = 800 /\
    ServerProcessing r = time.Sub (serverDone r) (serverStart r) /\
    StartTransfer r = time.Sub (serverDone r) (dnsStart r) /\
    transferStart r = serverDone r /\
    PreTransfer r = time.Sub (tlsDone r) (dnsStart r) /\
    Connect r <= PreTransfer r.
Proof.
  apply (tls_path 100 200 300 400 500 600 700 800); lia.
Defined.

(** C7. [End] on a measurement object that saw no event neither panics nor
    changes a duration: the five phase durations and the five cumulative
    ones, ContentTransfer and Total among them, still read zero. *)
Theorem End_never_used :
  forall t : time.Time,
    exists r,
      run [EvEnd t] zeroResult = Some r /\
      r = End t zeroResult /\ transferDone r = t /\
      DNSLookup r = 0 /\ TCPConnection r = 0 /\ TLSHandshake r = 0 /\
      ServerProcessing r = 0 /\ contentTransfer r = 0 /\
      NameLookup r = 0 /\ Connect r = 0 /\ PreTransfer r = 0 /\
      StartTransfer r = 0 /\ total r = 0.
Proof.
  intros t. eexists; split; [reflexivity |]. exec_new.
  repeat split.
Qed.

(** ** Addresses *)

Lemma index0_Split (s : string) (sep : ascii) :
  index0 (strings.Split s sep) = Some (fst (strings.fields sep s)).
Proof.
  unfold index0, strings.Split. destruct (strings.fields sep s); reflexivity.
Qed.

(** The first field of [host:rest] is [host] when [host] holds no colon. *)
Lemma fields_host (host rest : string) :
  (forall c, In c (list_ascii_of_string host) -> c <> ":"%char) ->
  fst (strings.fields ":" (host ++ String ":" rest)) = host.
Proof.
  induction host as [| c host IH]; intros Hfree; simpl.
  - destruct (strings.fields ":" rest); reflexivity.
  - destruct (strings.fields ":" (host ++ String ":" rest)) as [x xs] eqn:E.
    destruct (Ascii.eqb_spec c ":") as [-> | _].
    + exfalso. apply (Hfree ":"%char); simpl; auto.
    + simpl. f_equal. simpl in IH. apply IH.
      intros c' Hin. apply Hfree. simpl. auto.
Qed.

(** The hook on a connection with both addresses: it does not panic. *)
Lemma GotConn_connected (la ra : string) (reused : bool) (r : Result) :
  GotConn (connected la ra reused) r =
  Some (set_remoteAddr (fst (strings.fields ":" ra))
          (set_localAddr (fst (strings.fields ":" la))
             (if reused then set_isReused true r else r))).
Proof.
  unfold GotConn, connected, addrString, bind; simpl.
  rewrite !index0_Split. reflexivity.
Qed.

(** With addresses of the form [host:port], the hook stores the two hosts and
    [LocalIp] returns the local one. *)
Lemma GotConn_stores_hosts (lh lp rh rp : string) (reused : bool)
    (r : Result) :
  (forall c, In c (list_ascii_of_string lh) -> c <> ":"%char) ->
  (forall c, In c (list_ascii_of_string rh) -> c <> ":"%char) ->
  exists r',
    GotConn (connected (lh ++ String ":" lp) (rh ++ String ":" rp) reused) r
    = Some r' /\
    localAddr r' = lh /\ remoteAddr r' = rh /\ LocalIp r' = lh.
Proof.
  intros Hl Hr. rewrite GotConn_connected. eexists; split; [reflexivity |].
  unfold LocalIp. cbn [localAddr remoteAddr set_remoteAddr set_localAddr].
  rewrite !fields_host by assumption. repeat split.
Qed.

(** ** The reused connection *)

(** C2, as stated, fails: with the connection acquired at instant 100 and the
    request written at 250, the synthesized instants are 250, and
    StartTransfer is 150, not serverDone minus 100. *)
Lemma reused_anchor_counterexample :
  exists r,
    run [EvGotConn 100 (connected "10.0.0.5:51000" "93.184.216.34:443" true);
         EvWroteRequest 250; EvGotFirstResponseByte 400; EvEnd 500]
      zeroResult = Some r /\
    dnsStart r <> 100 /\ tcpStart r <> 100 /\ tlsStart r <> 100 /\
    serverDone r = 400 /\
    StartTransfer r = 150 /\
    StartTransfer r <> time.Sub (serverDone r) 100.
Proof.
  eexists; split; [reflexivity |]. vm_compute.
  repeat split; discriminate.
Qed.

(** C9. The code at a connection from 192.168.1.10:54321 to
    93.184.216.34:443: the hook stores both hosts, [LocalIp] returns the
    local one, and [RemoteIP] returns the local one too, where the older
    revision returns the remote host. *)
Theorem RemoteIP_returns_local :
  let i := connected "192.168.1.10:54321" "93.184.216.34:443" false in
  exists r o,
    run [EvGotConn 100 i] zeroResult = Some r /\
    Old.run [EvGotConn 100 i] (Old.WithHTTPStat Old.zeroResult) = Some o /\
    localAddr r = "192.168.1.10"%string /\
    remoteAddr r = "93.184.216.34"%string /\
    LocalIp r = "192.168.1.10"%string /\
    RemoteIP r = "192.168.1.10"%string /\
    Old.RemoteIP (Old.r o) = "93.184.216.34"%string.
Proof.
  do 2 eexists. split; [reflexivity |]. split; [reflexivity |].
  repeat split.
Qed.

(** ** Queries as of an instant *)

(** C3, as stated, fails: on an object whose anchors are unset, the queries
    as of 31 October 2026 return the largest duration, and as of one second
    after the zero instant they return that second; neither is zero. *)
Lemma asof_unset_counterexample :
  dnsStart zeroResult = 0 /\ serverDone zeroResult = 0 /\
  Total 63929001600000000000 zeroResult = time.maxDuration /\
  ContentTransfer 63929001600000000000 zeroResult = time.maxDuration /\
  Total 1000000000 zeroResult = 1000000000 /\
  ContentTransfer 1000000000 zeroResult = 1000000000 /\
  Total 63929001600000000000 zeroResult <> 0 /\
  ContentTransfer 63929001600000000000 zeroResult <> 0.
Proof.
  vm_compute. repeat split; discriminate.
Qed.

(** C3, amended. [Total t] is [t - dnsStart] and [ContentTransfer t] is
    [t - serverDone] whenever that difference fits a duration, and the
    largest (smallest) duration when it lies above (below); neither query
    fails.  An anchor that was never set is the zero instant, so the query
    then measures [t] from the zero instant: it is not zero unless [t] is the
    zero instant, and it is the largest duration for every [t] beyond
    [maxDuration]. *)
Theorem asof_queries :
  forall (t : time.Time) (r : Result),
    (time.inRange (t - dnsStart r) -> Total t r = t - dnsStart r) /\
    (time.inRange (t - serverDone r) ->
     ContentTransfer t r = t - serverDone r) /\
    (time.maxDuration < t - dnsStart r -> Total t r = time.maxDuration) /\
    (time.maxDuration < t - serverDone r ->
     ContentTransfer t r = time.maxDuration) /\
    (t - dnsStart r < time.minDuration -> Total t r = time.minDuration) /\
    (t - serverDone r < time.minDuration ->
     ContentTransfer t r = time.minDuration) /\
    (dnsStart r = 0 -> t <> 0 -> Total t r <> 0) /\
    (serverDone r = 0 -> t <> 0 -> ContentTransfer t r <> 0).
Proof.
  intros t r. unfold Total, ContentTransfer, time.inRange.
  generalize (dnsStart r) (serverDone r). intros d s.
  unfold time.Sub, time.minDuration, time.maxDuration.
  repeat split; intros;
    repeat match goal with
      | |- context [if ?a <? ?b then _ else _] =>
          destruct (Z.ltb_spec a b)
      end; lia.
Qed.

Lemma asof_queries_witness :
  let r := GotFirstResponseByte 800 (DNSStart 100 zeroResult) in
  (Total 900 r = 900 - dnsStart r /\
   ContentTransfer 900 r = 900 - serverDone r) /\
  (Total 63929001600000000000 zeroResult = time.maxDuration /\
   ContentTransfer 63929001600000000000 zeroResult = time.maxDuration) /\
  (Total (-9223372036854775813) zeroResult = time.minDuration /\
   ContentTransfer (-9223372036854775813) zeroResult = time.minDuration) /\
  (Total 1000000000 zeroResult <> 0 /\
   ContentTransfer 1000000000 zeroResult <> 0).
Proof.
  intros r.
  destruct (asof_queries 900 r) as (Ht & Hc & _).
  destruct (asof_queries 63929001600000000000 zeroResult)
    as (_ & _ & Htmax & Hcmax & _).
  destruct (asof_queries (-9223372036854775813) zeroResult)
    as (_ & _ & _ & _ & Htmin & Hcmin & _).
  destruct (asof_queries 1000000000 zeroResult)
    as (_ & _ & _ & _ & _ & _ & Htz & Hcz).
  split; [split | split; [split | split; [split | split]]].
  - apply Ht. unfold time.inRange, time.minDuration, time.maxDuration.
    simpl. lia.
  - apply Hc. unfold time.inRange, time.minDuration, time.maxDuration.
    simpl. lia.
  - apply Htmax. unfold time.maxDuration. simpl. lia.
  - apply Hcmax. unfold time.maxDuration. simpl. lia.
  - apply Htmin. unfold time.minDuration. simpl. lia.
  - apply Hcmin. unfold time.minDuration. simpl. lia.
  - apply Htz; [reflexivity | lia].
  - apply Hcz; [reflexivity | lia].
Defined.

(** ** Sequences of any shape *)

Lemma run_app (es1 es2 : list Event) (r : Result) :
  run (es1 ++ es2) r = (r' <- run es1 r ;; run es2 r').
Proof.
  revert r. induction es1 as [| e es1 IH]; intros r; simpl; [reflexivity |].
  destruct (fire e r) as [r1 |]; simpl; [apply IH | reflexivity].
Qed.

(** No hook panics but [GotConn] on a nil address. *)
Lemma fire_addressed (e : Event) (r : Result) :
  addressed e = true -> exists r', fire e r = Some r'.
Proof.
  destruct e; simpl; intros Ha; try (eexists; reflexivity).
  unfold GotConn, bind, addrString.
  destruct (LocalAddr (conn i)); [| discriminate].
  destruct (RemoteAddr (conn i)); [| discriminate].
  rewrite !index0_Split. eexists; reflexivity.
Qed.

Lemma run_addressed (es : list Event) (r : Result) :
  forallb addressed es = true -> exists r', run es r = Some r'.
Proof.
  revert r. induction es as [| e es IH]; intros r Ha; simpl.
  - eexists; reflexivity.
  - simpl in Ha. apply andb_true_iff in Ha as [He Hes].
    destruct (fire_addressed e r He) as [r1 ->]. simpl. apply IH, Hes.
Qed.

(** A property that every event outside the hooks [hs] keeps, is kept by a
    sequence in which none of [hs] fires. *)
Lemma run_keeps (P : Result -> Prop) (h : Hook -> bool) :
  (forall e r r', h (hookOf e) = false -> P r -> fire e r = Some r' -> P r') ->
  forall es r r',
    forallb (fun e => negb (h (hookOf e))) es = true ->
    P r -> run es r = Some r' -> P r'.
Proof.
  intros Hstep. induction es as [| e es IH]; intros r r' Hes HP Hrun.
  - simpl in Hrun. injection Hrun as <-. exact HP.
  - simpl in Hes, Hrun. apply andb_true_iff in Hes as [He Hes].
    destruct (fire e r) as [r1 |] eqn:Hf; simpl in Hrun; [| discriminate].
    apply (IH r1 r' Hes); [| exact Hrun].
    apply (Hstep e r r1); [| exact HP | exact Hf].
    destruct (h (hookOf e)); [discriminate | reflexivity].
Qed.

Lemma not_fired (h : Hook) (es : list Event) :
  fired h es = false ->
  forallb (fun e => negb (Hook_eqb (hookOf e) h)) es = true.
Proof.
  unfold fired, isHook. induction es as [| e es IH]; simpl; [reflexivity |].
  intros H. apply orb_false_iff in H as [-> Hes]. simpl. apply IH, Hes.
Qed.

(** Take a hypothesis [fire e r = Some r'] apart: the event, the panics of
    [GotConn] and every branch of the hook. *)
Ltac split_ifs :=
  repeat match goal with
    | |- context [if ?c then _ else _] => destruct c
    end.

Ltac fire_cases H :=
  match type of H with
  | fire ?e ?r = Some ?r' =>
      destruct e as [? | ? | ? | ? | ? | ? | ? [[[?|] [?|]] ?] | ? | ? | ?];
      cbn [fire] in H;
      try (unfold GotConn, bind, addrString in H; cbn [LocalAddr RemoteAddr conn Reused] in H;
           rewrite ?index0_Split in H);
      try discriminate H;
      injection H as <-;
      unfold DNSStart, DNSDone, ConnectStart, ConnectDone, TLSHandshakeStart,
        TLSHandshakeDone, WroteRequest, GotFirstResponseByte, End;
      cbv zeta
  end.

Lemma not_fired2 (a b : Hook) (es : list Event) :
  fired a es = false -> fired b es = false ->
  forallb (fun e => negb (Hook_eqb (hookOf e) a || Hook_eqb (hookOf e) b)) es
  = true.
Proof.
  unfold fired, isHook. induction es as [| e es IH]; simpl; [reflexivity |].
  intros Ha Hb. apply orb_false_iff in Ha as [-> Ha].
  apply orb_false_iff in Hb as [-> Hb]. simpl. apply IH; assumption.
Qed.

(** What each event leaves alone. *)

Lemma keeps_DNSLookup (e : Event) (r r' : Result) :
  Hook_eqb (hookOf e) HDNSDone = false ->
  DNSLookup r = 0 /\ NameLookup r = 0 ->
  fire e r = Some r' -> DNSLookup r' = 0 /\ NameLookup r' = 0.
Proof.
  intros Hk HP H. fire_cases H; try discriminate Hk; split_ifs; exact HP.
Qed.

Lemma keeps_TCPConnection (e : Event) (r r' : Result) :
  Hook_eqb (hookOf e) HConnectDone = false ->
  TCPConnection r = 0 /\ Connect r = 0 ->
  fire e r = Some r' -> TCPConnection r' = 0 /\ Connect r' = 0.
Proof.
  intros Hk HP H. fire_cases H; try discriminate Hk; split_ifs; exact HP.
Qed.

Lemma keeps_TLSHandshake (e : Event) (r r' : Result) :
  Hook_eqb (hookOf e) HTLSHandshakeDone = false ->
  TLSHandshake r = 0 ->
  fire e r = Some r' -> TLSHandshake r' = 0.
Proof.
  intros Hk HP H. fire_cases H; try discriminate Hk; split_ifs;
    try exact HP; apply Sub_diag.
Qed.

Lemma keeps_PreTransfer (e : Event) (r r' : Result) :
  Hook_eqb (hookOf e) HTLSHandshakeDone || Hook_eqb (hookOf e) HWroteRequest
  = false ->
  PreTransfer r = 0 ->
  fire e r = Some r' -> PreTransfer r' = 0.
Proof.
  intros Hk HP H. fire_cases H; try discriminate Hk; split_ifs; exact HP.
Qed.

Lemma keeps_ServerProcessing (e : Event) (r r' : Result) :
  Hook_eqb (hookOf e) HGotFirstResponseByte = false ->
  ServerProcessing r = 0 /\ StartTransfer r = 0 /\ transferStart r = 0 ->
  fire e r = Some r' ->
  ServerProcessing r' = 0 /\ StartTransfer r' = 0 /\ transferStart r' = 0.
Proof.
  intros Hk HP H. fire_cases H; try discriminate Hk; split_ifs; exact HP.
Qed.

Lemma keeps_contentTransfer (e : Event) (r r' : Result) :
  Hook_eqb (hookOf e) HEnd = false ->
  contentTransfer r = 0 /\ total r = 0 ->
  fire e r = Some r' -> contentTransfer r' = 0 /\ total r' = 0.
Proof.
  intros Hk HP H. fire_cases H; try discriminate Hk; split_ifs; exact HP.
Qed.

Lemma keeps_isTLS (e : Event) (r r' : Result) :
  Hook_eqb (hookOf e) HTLSHandshakeStart = false ->
  isTLS r = false ->
  fire e r = Some r' -> isTLS r' = false.
Proof.
  intros Hk HP H. fire_cases H; try discriminate Hk; split_ifs; exact HP.
Qed.

(** Without a TLS handshake, Request-written closes the TLS phase at zero
    and copies Connect. *)
Lemma WroteRequest_plain (now : time.Time) (r : Result) :
  isTLS r = false ->
  TLSHandshake (WroteRequest now r) = 0 /\
  PreTransfer (WroteRequest now r) = Connect (WroteRequest now r).
Proof.
  destruct r as [? ? ? ? ? ? ? ? ? ? ? ? ds ? ts ? ? ? ? ? ? ? tl ru].
  cbn [isTLS]. intros ->.
  destruct ds, ts, ru; exec_new; rewrite Sub_diag; split; reflexivity.
Qed.

Lemma Sub_unset_anchor (t : time.Time) : t <> 0 -> time.Sub t 0 <> 0.
Proof.
  intros Ht. unfold time.Sub, time.minDuration, time.maxDuration.
  destruct (Z.ltb_spec (t - 0) (- 2 ^ 63)); [lia |].
  destruct (Z.ltb_spec (2 ^ 63 - 1) (t - 0)); lia.
Qed.

(** C5. For every sequence of events without a TLS handshake (so also every
    one that holds the DNS and the Connect events and no TLS event), the
    Request-written hook that follows it returns, and after it
    TLSHandshake = 0 and PreTransfer = Connect. *)
Theorem plain_http_PreTransfer :
  forall (es : list Event) (now : time.Time),
    forallb addressed es = true ->
    fired HTLSHandshakeStart es = false ->
    exists r,
      run (es ++ [EvWroteRequest now]) zeroResult = Some r /\
      TLSHandshake r = 0 /\ PreTransfer r = Connect r.
Proof.
  intros es now Ha Hf.
  destruct (run_addressed es zeroResult Ha) as [r1 Hr1].
  assert (Htls : isTLS r1 = false).
  { apply (run_keeps (fun r => isTLS r = false)
             (fun k => Hook_eqb k HTLSHandshakeStart) keeps_isTLS
             es zeroResult r1); [apply not_fired, Hf | reflexivity | exact Hr1]. }
  exists (WroteRequest now r1). split.
  - rewrite run_app, Hr1. reflexivity.
  - apply WroteRequest_plain, Htls.
Qed.

Lemma plain_http_PreTransfer_witness :
  exists r,
    run ([EvDNSStart 100; EvDNSDone 200; EvConnectStart 300;
          EvConnectDone 400] ++ [EvWroteRequest 500]) zeroResult = Some r /\
    TLSHandshake r = 0 /\ PreTransfer r = Connect r.
Proof.
  apply (plain_http_PreTransfer
           [EvDNSStart 100; EvDNSDone 200; EvConnectStart 300;
            EvConnectDone 400] 500); reflexivity.
Defined.

(** ** Requests cut short *)

(** C8, as stated, fails: a request canceled after DNS-done (First-byte never
    fires) and then ended reports the largest duration as ContentTransfer,
    not zero. *)
Lemma canceled_ContentTransfer_counterexample :
  let es := [EvDNSStart 63929001600000000000;
             EvDNSDone 63929001600020000000;
             EvEnd 63929001605000000000] in
  fired HGotFirstResponseByte es = false /\
  exists r,
    run es zeroResult = Some r /\
    contentTransfer r = time.maxDuration /\ contentTransfer r <> 0.
Proof.
  split; [reflexivity |].
  eexists; split; [reflexivity |]. vm_compute. split; [reflexivity | discriminate].
Qed.

(** C8, amended. Whatever events have fired, none of them panics (the
    connections having their addresses), and every duration reads zero until
    an event that assigns it has fired: DNS-done for DNSLookup and NameLookup,
    Connect-done for TCPConnection and Connect, TLS-done for TLSHandshake,
    TLS-done or Request-written for PreTransfer, First-byte for
    ServerProcessing and StartTransfer, End for ContentTransfer and Total.
    [End] itself leaves ContentTransfer and Total at zero when dnsStart is
    unset; when dnsStart is set and First-byte never fired, it sets
    ContentTransfer to [t] measured from the zero instant, which is not
    zero. *)
Theorem truncated_durations :
  forall es : list Event,
    forallb addressed es = true ->
    exists r,
      run es zeroResult = Some r /\
      (fired HDNSDone es = false -> DNSLookup r = 0 /\ NameLookup r = 0) /\
      (fired HConnectDone es = false ->
       TCPConnection r = 0 /\ Connect r = 0) /\
      (fired HTLSHandshakeDone es = false -> TLSHandshake r = 0) /\
      (fired HTLSHandshakeDone es = false -> fired HWroteRequest es = false ->
       PreTransfer r = 0) /\
      (fired HGotFirstResponseByte es = false ->
       ServerProcessing r = 0 /\ StartTransfer r = 0) /\
      (fired HEnd es = false -> contentTransfer r = 0 /\ total r = 0) /\
      (fired HEnd es = false -> dnsStart r = 0 ->
       forall t, contentTransfer (End t r) = 0 /\ total (End t r) = 0) /\
      (fired HGotFirstResponseByte es = false -> dnsStart r <> 0 ->
       forall t,
         contentTransfer (End t r) = time.Sub t 0 /\
         (t <> 0 -> contentTransfer (End t r) <> 0)).
Proof.
  intros es Ha.
  destruct (run_addressed es zeroResult Ha) as [r Hr].
  exists r. split; [exact Hr |].
  assert (Hdns : fired HDNSDone es = false ->
                 DNSLookup r = 0 /\ NameLookup r = 0).
  { intros Hf.
    apply (run_keeps _ (fun k => Hook_eqb k HDNSDone) keeps_DNSLookup
             es zeroResult r); [apply not_fired, Hf | split; reflexivity | exact Hr]. }
  assert (Htcp : fired HConnectDone es = false ->
                 TCPConnection r = 0 /\ Connect r = 0).
  { intros Hf.
    apply (run_keeps _ (fun k => Hook_eqb k HConnectDone) keeps_TCPConnection
             es zeroResult r); [apply not_fired, Hf | split; reflexivity | exact Hr]. }
  assert (Htls : fired HTLSHandshakeDone es = false -> TLSHandshake r = 0).
  { intros Hf.
    apply (run_keeps _ (fun k => Hook_eqb k HTLSHandshakeDone)
             keeps_TLSHandshake es zeroResult r);
      [apply not_fired, Hf | reflexivity | exact Hr]. }
  assert (Hpre : fired HTLSHandshakeDone es = false ->
                 fired HWroteRequest es = false -> PreTransfer r = 0).
  { intros Hf Hw.
    apply (run_keeps _ (fun k => Hook_eqb k HTLSHandshakeDone
                                 || Hook_eqb k HWroteRequest)
             keeps_PreTransfer es zeroResult r);
      [apply not_fired2; assumption | reflexivity | exact Hr]. }
  assert (Hsrv : fired HGotFirstResponseByte es = false ->
                 ServerProcessing r = 0 /\ StartTransfer r = 0 /\
                 transferStart r = 0).
  { intros Hf.
    apply (run_keeps _ (fun k => Hook_eqb k HGotFirstResponseByte)
             keeps_ServerProcessing es zeroResult r);
      [apply not_fired, Hf | repeat split | exact Hr]. }
  assert (Hend : fired HEnd es = false ->
                 contentTransfer r = 0 /\ total r = 0).
  { intros Hf.
    apply (run_keeps _ (fun k => Hook_eqb k HEnd) keeps_contentTransfer
             es zeroResult r); [apply not_fired, Hf | split; reflexivity | exact Hr]. }
  repeat match goal with |- _ /\ _ => split end;
    try assumption.
  - intros Hf. destruct (Hsrv Hf) as (H1 & H2 & _). split; assumption.
  - intros Hf Hz t. destruct (Hend Hf) as [Hc Ht].
    unfold End. cbv zeta.
    replace (time.IsZero (dnsStart (set_transferDone t r))) with true
      by (symmetry; apply Z.eqb_eq; exact Hz).
    split; assumption.
  - intros Hf Hset t. destruct (Hsrv Hf) as (_ & _ & Hts).
    assert (Hc : contentTransfer (End t r) = time.Sub t 0).
    { unfold End. cbv zeta.
      replace (time.IsZero (dnsStart (set_transferDone t r))) with false
        by (symmetry; apply Z.eqb_neq; exact Hset).
      cbn [contentTransfer set_total set_contentTransfer transferDone
             transferStart set_transferDone].
      rewrite Hts. reflexivity. }
    split; [exact Hc |]. intros Ht. rewrite Hc. apply Sub_unset_anchor, Ht.
Qed.

Lemma truncated_durations_witness :
  (exists r,
      run [EvDNSStart 100; EvDNSDone 200; EvConnectStart 300] zeroResult
      = Some r /\
      TCPConnection r = 0 /\ Connect r = 0 /\ TLSHandshake r = 0 /\
      PreTransfer r = 0 /\ ServerProcessing r = 0 /\ StartTransfer r = 0 /\
      contentTransfer r = 0 /\ total r = 0 /\
      contentTransfer (End 900 r) = time.Sub 900 0 /\
      contentTransfer (End 900 r) <> 0) /\
  (exists r,
      run [EvTLSHandshakeStart 100] zeroResult = Some r /\
      DNSLookup r = 0 /\ NameLookup r = 0 /\
      contentTransfer (End 900 r) = 0 /\ total (End 900 r) = 0).
Proof.
  split.
  - destruct (truncated_durations
                [EvDNSStart 100; EvDNSDone 200; EvConnectStart 300]
                eq_refl)
      as (r & Hr & _ & Htcp & Htls & Hpre & Hsrv & Hend & _ & Hcut).
    exists r. split; [exact Hr |].
    assert (Hset : dnsStart r <> 0).
    { vm_compute in Hr. injection Hr as <-. simpl. lia. }
    destruct (Htcp eq_refl) as [H1 H2].
    destruct (Hsrv eq_refl) as [H3 H4].
    destruct (Hend eq_refl) as [H5 H6].
    destruct (Hcut eq_refl Hset 900) as [H7 H8].
    repeat match goal with |- _ /\ _ => split end;
      try assumption.
    + exact (Htls eq_refl).
    + exact (Hpre eq_refl eq_refl).
    + apply H8. lia.
  - destruct (truncated_durations [EvTLSHandshakeStart 100] eq_refl)
      as (r & Hr & Hdns & _ & _ & _ & _ & _ & Hunset & _).
    exists r. split; [exact Hr |].
    assert (Hz : dnsStart r = 0).
    { vm_compute in Hr. injection Hr as <-. reflexivity. }
    destruct (Hdns eq_refl) as [H1 H2].
    destruct (Hunset eq_refl Hz 900) as [H3 H4].
    repeat split; assumption.
Defined.

(** ** The two revisions *)

Ltac exec_old :=
  cbv beta iota zeta delta
    [Old.run Old.fire bind connected
     Old.DNSStart Old.DNSDone Old.ConnectStart Old.ConnectDone
     Old.TLSHandshakeStart Old.TLSHandshakeDone Old.GotConn Old.WroteRequest
     Old.GotFirstResponseByte Old.End Old.Total Old.LocalIp Old.RemoteIP
     Old.zeroResult Old.WithHTTPStat
     Old.set_NameLookup Old.set_Connect Old.set_PreTransfer
     Old.set_StartTransfer Old.set_total Old.set_localAddr
     Old.set_remoteAddr Old.set_start Old.set_transferDone
     Old.set_r Old.set_dnsStart Old.set_dnsDone Old.set_tcpStart
     Old.set_tcpDone Old.set_tlsDone Old.set_serverStart Old.set_serverDone
     Old.set_isTLS Old.set_isReused
     Old.NameLookup Old.Connect Old.PreTransfer Old.StartTransfer Old.total
     Old.localAddr Old.remoteAddr Old.start Old.transferDone
     Old.r Old.dnsStart Old.dnsDone Old.tcpStart Old.tcpDone Old.tlsDone
     Old.serverStart Old.serverDone Old.isTLS Old.isReused
     conn Reused LocalAddr RemoteAddr andb time.IsZero Z.eqb].


Lemma add_0_Sub (t u : time.Time) : time.add 0 (time.Sub t u) = time.Sub t u.
Proof. apply add_0_l, Sub_inRange. Qed.






(** * Further properties of the code *)

(** ** Invariants of the newer recorder *)

Lemma run_invariant (P : Result -> Prop) :
  (forall e r r', P r -> fire e r = Some r' -> P r') ->
  forall es r r', P r -> run es r = Some r' -> P r'.
Proof.
  intros Hstep. induction es as [| e es IH]; intros r r' HP Hrun.
  - simpl in Hrun. injection Hrun as <-. exact HP.
  - simpl in Hrun.
    destruct (fire e r) as [r1 |] eqn:Hf; simpl in Hrun; [| discriminate].
    apply (IH r1 r'); [apply (Hstep e r r1 HP Hf) | exact Hrun].
Qed.

Lemma keeps_transferStart (e : Event) (r r' : Result) :
  transferStart r = serverDone r ->
  fire e r = Some r' -> transferStart r' = serverDone r'.
Proof.
  intros HP H. fire_cases H; split_ifs; try exact HP; reflexivity.
Qed.

Lemma End_set (t : time.Time) (r : Result) :
  dnsStart r <> 0 ->
  End t r =
  set_total (time.Sub t (dnsStart r))
    (set_contentTransfer (time.Sub t (transferStart r))
       (set_transferDone t r)).
Proof.
  intros Hset. unfold End. cbv zeta.
  replace (time.IsZero (dnsStart (set_transferDone t r))) with false
    by (symmetry; apply Z.eqb_neq; exact Hset).
  reflexivity.
Qed.

Lemma End_unset (t : time.Time) (r : Result) :
  dnsStart r = 0 -> End t r = set_transferDone t r.
Proof.
  intros Hz. unfold End. cbv zeta.
  replace (time.IsZero (dnsStart (set_transferDone t r))) with true
    by (symmetry; apply Z.eqb_eq; exact Hz).
  reflexivity.
Qed.

(** X1. Whatever events have fired on a fresh result, transferStart is
    serverDone, so once dnsStart is set the queries as of [t] return what
    [End t] would store: [Total t] the total and [ContentTransfer t] the
    content transfer. *)
Theorem asof_is_End :
  forall es : list Event,
    forallb addressed es = true ->
    exists r,
      run es zeroResult = Some r /\
      transferStart r = serverDone r /\
      (dnsStart r <> 0 ->
       forall t, Total t r = total (End t r) /\
                 ContentTransfer t r = contentTransfer (End t r)).
Proof.
  intros es Ha.
  destruct (run_addressed es zeroResult Ha) as [r Hr].
  assert (Hts : transferStart r = serverDone r).
  { apply (run_invariant _ keeps_transferStart es zeroResult r);
      [reflexivity | exact Hr]. }
  exists r. repeat split; try assumption.
  - rewrite End_set by assumption. reflexivity.
  - rewrite End_set by assumption. unfold ContentTransfer.
    cbn [contentTransfer set_total set_contentTransfer].
    rewrite Hts. reflexivity.
Qed.

Lemma asof_is_End_witness :
  exists r,
    run [EvDNSStart 100; EvDNSDone 200; EvConnectStart 300;
         EvConnectDone 400; EvWroteRequest 500; EvGotFirstResponseByte 800]
      zeroResult = Some r /\
    Total 900 r = total (End 900 r) /\
    ContentTransfer 900 r = contentTransfer (End 900 r).
Proof.
  destruct (asof_is_End
              [EvDNSStart 100; EvDNSDone 200; EvConnectStart 300;
               EvConnectDone 400; EvWroteRequest 500;
               EvGotFirstResponseByte 800] eq_refl)
    as (r & Hr & _ & Hq).
  exists r. split; [exact Hr |]. apply Hq.
  vm_compute in Hr. injection Hr as <-. simpl. lia.
Defined.

(** X2. A later [End] replaces an earlier one: the result is the one of the
    later call alone, and calling [End] twice with one instant is calling it
    once. *)
Theorem End_overwrites :
  forall (t1 t2 : time.Time) (r : Result),
    End t2 (End t1 r) = End t2 r.
Proof.
  intros t1 t2 r.
  destruct r as [? ? ? ? ? ? ? ? ? ? ? ? ds ? ? ? ? ? ? ? ? ? ? ?].
  destruct ds; exec_new; reflexivity.
Qed.

(** X3. A transport that fires no dial hook (Request-written, First-byte,
    End, the request written at a set instant): Request-written puts
    dnsStart, dnsDone, tcpStart and tcpDone at its own instant and leaves the
    TLS instants unset; DNSLookup, TCPConnection, TLSHandshake, NameLookup,
    Connect and PreTransfer are zero, ServerProcessing and StartTransfer are
    both first-byte minus request-written, and Total is End minus
    request-written. *)
Theorem uninstrumented_transport :
  forall tw tf te : time.Time,
    tw <> 0 ->
    exists r,
      run [EvWroteRequest tw; EvGotFirstResponseByte tf; EvEnd te]
        zeroResult = Some r /\
      dnsStart r = tw /\ dnsDone r = tw /\ tcpStart r = tw /\
      tcpDone r = tw /\ tlsStart r = 0 /\ tlsDone r = 0 /\
      DNSLookup r = 0 /\ TCPConnection r = 0 /\ TLSHandshake r = 0 /\
      NameLookup r = 0 /\ Connect r = 0 /\ PreTransfer r = 0 /\
      ServerProcessing r = time.Sub tf tw /\
      StartTransfer r = time.Sub tf tw /\
      contentTransfer r = time.Sub te tf /\
      total r = time.Sub te tw.
Proof.
  intros tw tf te Hset.
  set_instant tw; (eexists; split; [reflexivity |]); exec_new;
    rewrite ?Sub_diag; repeat split.
Qed.

Lemma uninstrumented_transport_witness :
  exists r,
    run [EvWroteRequest 500; EvGotFirstResponseByte 800; EvEnd 900]
      zeroResult = Some r /\
    dnsStart r = 500 /\ dnsDone r = 500 /\ tcpStart r = 500 /\
    tcpDone r = 500 /\ tlsStart r = 0 /\ tlsDone r = 0 /\
    DNSLookup r = 0 /\ TCPConnection r = 0 /\ TLSHandshake r = 0 /\
    NameLookup r = 0 /\ Connect r = 0 /\ PreTransfer r = 0 /\
    ServerProcessing r = time.Sub 800 500 /\
    StartTransfer r = time.Sub 800 500 /\
    contentTransfer r = time.Sub 900 800 /\
    total r = time.Sub 900 500.
Proof.
  apply (uninstrumented_transport 500 800 900). lia.
Defined.

(** X4. In the well-formed TLS request (nine events at set instants that do
    not decrease, End within the largest duration of DNS-start), the phases
    and the idle gaps between them add up: Total is DNSLookup, TCPConnection,
    TLSHandshake, ServerProcessing and ContentTransfer plus the three gaps
    DNS-done to Connect-start, Connect-done to TLS-start and TLS-done to
    Request-written; and Total is StartTransfer plus ContentTransfer. *)
Theorem phases_add_up :
  forall t1 t2 t3 t4 t5 t6 t7 t8 t9 : time.Time,
    t1 <> 0 -> t1 <= t2 -> t2 <= t3 -> t3 <= t4 -> t4 <= t5 -> t5 <= t6 ->
    t6 <= t7 -> t7 <= t8 -> t8 <= t9 -> t9 - t1 <= time.maxDuration ->
    exists r,
      run [EvDNSStart t1; EvDNSDone t2; EvConnectStart t3; EvConnectDone t4;
           EvTLSHandshakeStart t5; EvTLSHandshakeDone t6; EvWroteRequest t7;
           EvGotFirstResponseByte t8; EvEnd t9] zeroResult = Some r /\
      total r =
        DNSLookup r + (t3 - t2) + TCPConnection r + (t5 - t4)
        + TLSHandshake r + (t7 - t6) + ServerProcessing r
        + contentTransfer r /\
      total r = StartTransfer r + contentTransfer r /\
      total r = t9 - t1.
Proof.
  intros t1 t2 t3 t4 t5 t6 t7 t8 t9 Hset H12 H23 H34 H45 H56 H67 H78 H89 Hm.
  unfold time.maxDuration in Hm.
  set_instant t1;
    (eexists; split; [reflexivity |]); exec_new;
    rewrite !Sub_exact
      by (unfold time.minDuration, time.maxDuration; lia);
    repeat split; lia.
Qed.

Lemma phases_add_up_witness :
  exists r,
    run [EvDNSStart 100; EvDNSDone 200; EvConnectStart 300; EvConnectDone 400;
         EvTLSHandshakeStart 500; EvTLSHandshakeDone 600; EvWroteRequest 700;
         EvGotFirstResponseByte 800; EvEnd 900] zeroResult = Some r /\
    total r =
      DNSLookup r + (300 - 200) + TCPConnection r + (500 - 400)
      + TLSHandshake r + (700 - 600) + ServerProcessing r
      + contentTransfer r /\
    total r = StartTransfer r + contentTransfer r /\
    total r = 900 - 100.
Proof.
  apply (phases_add_up 100 200 300 400 500 600 700 800 900);
    unfold time.maxDuration; lia.
Defined.

(** Reduce the projections of a record built by assignments. *)
Ltac fields_of_sets :=
  cbn [NameLookup Connect PreTransfer StartTransfer total DNSLookup
       TCPConnection TLSHandshake ServerProcessing contentTransfer localAddr
       remoteAddr dnsStart dnsDone tcpStart tcpDone tlsStart tlsDone
       serverStart serverDone transferStart transferDone isTLS isReused
       set_NameLookup set_Connect set_PreTransfer set_StartTransfer set_total
       set_DNSLookup set_TCPConnection set_TLSHandshake set_ServerProcessing
       set_contentTransfer set_localAddr set_remoteAddr set_dnsStart
       set_dnsDone set_tcpStart set_tcpDone set_tlsStart set_tlsDone
       set_serverStart set_serverDone set_transferStart set_transferDone
       set_isTLS set_isReused].

Lemma isTLS_stays (e : Event) (r r' : Result) :
  isTLS r = true -> fire e r = Some r' -> isTLS r' = true.
Proof.
  intros HP H. fire_cases H; split_ifs; try exact HP; reflexivity.
Qed.

Lemma isTLS_fired (es : list Event) (r r' : Result) :
  fired HTLSHandshakeStart es = true ->
  run es r = Some r' -> isTLS r' = true.
Proof.
  revert r. induction es as [| e es IH]; intros r Hf Hrun.
  - discriminate Hf.
  - simpl in Hrun.
    destruct (fire e r) as [r1 |] eqn:He; simpl in Hrun; [| discriminate].
    unfold fired in Hf. simpl in Hf.
    destruct (isHook HTLSHandshakeStart e) eqn:Hk.
    + apply (run_invariant _ isTLS_stays es r1 r'); [| exact Hrun].
      destruct e; try discriminate Hk.
      simpl in He. injection He as <-. reflexivity.
    + apply (IH r1); [exact Hf | exact Hrun].
Qed.

Lemma WroteRequest_TLS (now : time.Time) (r : Result) :
  isTLS r = true ->
  let r' := WroteRequest now r in
  serverStart r' = now /\
  DNSLookup r' = DNSLookup r /\ TCPConnection r' = TCPConnection r /\
  TLSHandshake r' = TLSHandshake r /\
  ServerProcessing r' = ServerProcessing r /\
  contentTransfer r' = contentTransfer r /\
  NameLookup r' = NameLookup r /\ Connect r' = Connect r /\
  PreTransfer r' = PreTransfer r /\ StartTransfer r' = StartTransfer r /\
  total r' = total r.
Proof.
  destruct r as [? ? ? ? ? ? ? ? ? ? ? ? ds ? ts ? ? ? ? ? ? ? tl ru].
  cbn [isTLS]. intros ->.
  destruct ds, ts, ru; exec_new; repeat split.
Qed.

(** X5. Once a TLS handshake has started, the flag stays, whatever fires
    next; the Request-written hook then only stamps serverStart (and the
    synthesized instants) and changes none of the ten durations. *)
Theorem WroteRequest_after_TLS :
  forall (es : list Event) (now : time.Time),
    forallb addressed es = true ->
    fired HTLSHandshakeStart es = true ->
    exists r,
      run es zeroResult = Some r /\ isTLS r = true /\
      let r' := WroteRequest now r in
      serverStart r' = now /\
      DNSLookup r' = DNSLookup r /\ TCPConnection r' = TCPConnection r /\
      TLSHandshake r' = TLSHandshake r /\
      ServerProcessing r' = ServerProcessing r /\
      contentTransfer r' = contentTransfer r /\
      NameLookup r' = NameLookup r /\ Connect r' = Connect r /\
      PreTransfer r' = PreTransfer r /\ StartTransfer r' = StartTransfer r /\
      total r' = total r.
Proof.
  intros es now Ha Hf.
  destruct (run_addressed es zeroResult Ha) as [r Hr].
  assert (Htls : isTLS r = true) by exact (isTLS_fired es zeroResult r Hf Hr).
  exists r. split; [exact Hr |]. split; [exact Htls |].
  apply WroteRequest_TLS, Htls.
Qed.

Lemma WroteRequest_after_TLS_witness :
  exists r,
    run [EvDNSStart 100; EvDNSDone 200; EvConnectStart 300; EvConnectDone 400;
         EvTLSHandshakeStart 500; EvTLSHandshakeDone 600] zeroResult
    = Some r /\ isTLS r = true /\
    let r' := WroteRequest 700 r in
    serverStart r' = 700 /\
    DNSLookup r' = DNSLookup r /\ TCPConnection r' = TCPConnection r /\
    TLSHandshake r' = TLSHandshake r /\
    ServerProcessing r' = ServerProcessing r /\
    contentTransfer r' = contentTransfer r /\
    NameLookup r' = NameLookup r /\ Connect r' = Connect r /\
    PreTransfer r' = PreTransfer r /\ StartTransfer r' = StartTransfer r /\
    total r' = total r.
Proof.
  apply (WroteRequest_after_TLS
           [EvDNSStart 100; EvDNSDone 200; EvConnectStart 300;
            EvConnectDone 400; EvTLSHandshakeStart 500;
            EvTLSHandshakeDone 600] 700); reflexivity.
Defined.

(** ** The connection's addresses *)

Lemma fields_first (s : string) :
  let h := fst (strings.fields ":" s) in
  (forall c, In c (list_ascii_of_string h) -> c <> ":"%char) /\
  (s = h \/ exists rest, s = (h ++ String ":" rest)%string).
Proof.
  induction s as [| c s IH]; simpl.
  - split; [intros c [] | left; reflexivity].
  - destruct (strings.fields ":" s) as [x xs] eqn:E. simpl in IH.
    destruct IH as [Hfree Hshape].
    destruct (Ascii.eqb_spec c ":") as [-> | Hc]; simpl.
    + split; [intros c [] |]. right. exists s. reflexivity.
    + split.
      * intros c' [<- | Hin]; [exact Hc | apply Hfree, Hin].
      * destruct Hshape as [-> | [rest ->]];
          [left; reflexivity | right; exists rest; reflexivity].
Qed.

(** X7. What [GotConn] stores of an address is its text before the first
    colon: the stored host holds no colon, and the address is either the
    host itself or the host, a colon and a rest.  (For a bracketed IPv6
    address that is the opening bracket and the first group, not the
    host.) *)
Theorem GotConn_keeps_text_before_colon :
  forall (la ra : string) (reused : bool) (r : Result),
    exists r',
      GotConn (connected la ra reused) r = Some r' /\
      (forall c, In c (list_ascii_of_string (localAddr r')) -> c <> ":"%char) /\
      (la = localAddr r' \/
       exists rest, la = (localAddr r' ++ String ":" rest)%string) /\
      (forall c, In c (list_ascii_of_string (remoteAddr r')) -> c <> ":"%char) /\
      (ra = remoteAddr r' \/
       exists rest, ra = (remoteAddr r' ++ String ":" rest)%string).
Proof.
  intros la ra reused r. rewrite GotConn_connected.
  eexists; split; [reflexivity |]. fields_of_sets.
  destruct (fields_first la) as [Hl1 Hl2].
  destruct (fields_first ra) as [Hr1 Hr2].
  repeat split; assumption.
Qed.

(** X8. A hook of the newer revision panics in one case only: [GotConn] on
    a connection whose local or remote address is nil. *)
Theorem fire_panics_on_nil_address :
  forall (e : Event) (r : Result),
    fire e r = None <-> addressed e = false.
Proof.
  intros e r. split.
  - intros Hnone. destruct (addressed e) eqn:Ha; [| reflexivity].
    destruct (fire_addressed e r Ha) as [r' Hr']. congruence.
  - destruct e as [? | ? | ? | ? | ? | ? | ? [[[la |] [ra |]] reused] | ? | ? | ?];
      simpl; intros Ha; try discriminate Ha;
      unfold GotConn, bind, addrString;
      cbn [LocalAddr RemoteAddr conn]; rewrite ?index0_Split; reflexivity.
Qed.

Lemma fire_panics_on_nil_address_witness :
  fire (EvGotConn 100 {| conn := {| LocalAddr := Some "10.0.0.5:51000"%string;
                                    RemoteAddr := None |};
                         Reused := false |}) zeroResult = None.
Proof.
  apply (fire_panics_on_nil_address
           (EvGotConn 100 {| conn := {| LocalAddr := Some "10.0.0.5:51000"%string;
                                        RemoteAddr := None |};
                             Reused := false |}) zeroResult).
  reflexivity.
Defined.

(** ** The older recorder *)

Lemma Old_fire_total (e : Event) (s : Old.Recorder) :
  exists s', Old.fire e s = Some s'.
Proof.
  destruct e as [? | ? | ? | ? | ? | ? | ? [[[la |] [ra |]] reused] | ? | ? | ?];
    simpl; try (eexists; reflexivity);
    unfold Old.GotConn, bind; cbn [LocalAddr RemoteAddr conn];
    rewrite ?index0_Split; eexists; reflexivity.
Qed.

Lemma Old_run_total (es : list Event) (s : Old.Recorder) :
  exists s', Old.run es s = Some s'.
Proof.
  revert s. induction es as [| e es IH]; intros s; simpl.
  - eexists; reflexivity.
  - destruct (Old_fire_total e s) as [s1 ->]. simpl. apply IH.
Qed.

Ltac old_fire_cases H :=
  match type of H with
  | Old.fire ?e ?s = Some ?s' =>
      destruct e as [? | ? | ? | ? | ? | ? | ? [[[?|] [?|]] ?] | ? | ? | ?];
      cbn [Old.fire] in H;
      try (unfold Old.GotConn, bind in H;
           cbn [LocalAddr RemoteAddr conn Reused] in H;
           rewrite ?index0_Split in H);
      cbv beta iota zeta in H;
      injection H as <-;
      unfold Old.DNSStart, Old.DNSDone, Old.ConnectStart, Old.ConnectDone,
        Old.TLSHandshakeStart, Old.TLSHandshakeDone, Old.WroteRequest,
        Old.GotFirstResponseByte, Old.End;
      cbv zeta
  end.

(** Split on one test whose outcome nothing in the goal decides: a flag, or
    [IsZero] of an instant. *)
Ltac split_if_var :=
  match goal with
  | |- context [if ?c then _ else _] => is_var c; destruct c
  | |- context [if time.IsZero ?x then _ else _] =>
      is_var x; destruct (time.IsZero x)
  | |- context [if time.IsZero ?x && time.IsZero ?y then _ else _] =>
      is_var x; is_var y; destruct (time.IsZero x), (time.IsZero y);
      cbn [andb]
  end.

(** Reduce the projections of an older recorder built by assignments. *)
Ltac old_fields_of_sets :=
  cbn [Old.NameLookup Old.Connect Old.PreTransfer Old.StartTransfer
       Old.total Old.localAddr Old.remoteAddr Old.start Old.transferDone
       Old.r Old.dnsStart Old.dnsDone Old.tcpStart Old.tcpDone Old.tlsDone
       Old.serverStart Old.serverDone Old.isTLS Old.isReused
       Old.set_NameLookup Old.set_Connect Old.set_PreTransfer
       Old.set_StartTransfer Old.set_total Old.set_localAddr
       Old.set_remoteAddr Old.set_start Old.set_transferDone
       Old.set_r Old.set_dnsStart Old.set_dnsDone Old.set_tcpStart
       Old.set_tcpDone Old.set_tlsDone Old.set_serverStart
       Old.set_serverDone Old.set_isTLS Old.set_isReused].

Lemma Old_keeps_start (e : Event) (s s' : Old.Recorder) :
  Old.start (Old.r s) <> 0 ->
  Old.fire e s = Some s' -> Old.start (Old.r s') = Old.start (Old.r s).
Proof.
  destruct s as [[? ? ? ? ? ? ? st ?] ? ? ? ? ? ? ? ? ?].
  cbn [Old.start Old.r]. intros Hset H.
  assert (Hz : time.IsZero st = false) by (apply Z.eqb_neq; exact Hset).
  old_fire_cases H;
    repeat (old_fields_of_sets; rewrite ?Hz; cbv beta iota; try split_if_var);
    reflexivity.
Qed.

Lemma Old_run_keeps_start (es : list Event) (s s' : Old.Recorder) :
  Old.start (Old.r s) <> 0 ->
  Old.run es s = Some s' -> Old.start (Old.r s') = Old.start (Old.r s).
Proof.
  revert s. induction es as [| e es IH]; intros s Hset Hrun; simpl in Hrun.
  - injection Hrun as <-. reflexivity.
  - destruct (Old.fire e s) as [s1 |] eqn:He; simpl in Hrun; [| discriminate].
    pose proof (Old_keeps_start e s s1 Hset He) as H1.
    rewrite <- H1. apply IH; [rewrite H1; exact Hset | exact Hrun].
Qed.

(** X9. The hooks of the older revision never panic, nil addresses
    included, and the start of the request is set once: after a first
    DNS-start at a set instant, whatever events follow (further lookups,
    connects, reused connections, earlier calls of End), [End te] reports
    the total from that first instant. *)
Theorem Old_total_from_first_start :
  forall (t1 te : time.Time) (es : list Event),
    t1 <> 0 ->
    exists s,
      Old.run (EvDNSStart t1 :: es ++ [EvEnd te])
        (Old.WithHTTPStat Old.zeroResult) = Some s /\
      Old.start (Old.r s) = t1 /\
      Old.total (Old.r s) = time.Sub te t1.
Proof.
  intros t1 te es Hset.
  destruct (Old_run_total es (Old.DNSStart t1 (Old.WithHTTPStat Old.zeroResult)))
    as [s1 Hs1].
  assert (Hstart : Old.start (Old.r s1) = t1).
  { rewrite (Old_run_keeps_start es
               (Old.DNSStart t1 (Old.WithHTTPStat Old.zeroResult)) s1);
      [reflexivity | simpl; exact Hset | exact Hs1]. }
  exists (Old.set_r (Old.End te (Old.r s1)) s1). split.
  - cbn [Old.run Old.fire bind].
    assert (Happ : forall l1 l2 s, Old.run (l1 ++ l2) s
                   = (s' <- Old.run l1 s ;; Old.run l2 s')).
    { induction l1 as [| e l1 IH]; intros l2 s; simpl; [reflexivity |].
      destruct (Old.fire e s); simpl; [apply IH | reflexivity]. }
    rewrite Happ, Hs1. reflexivity.
  - clear Hs1.
    destruct s1 as [[? ? ? ? ? ? ? st ?] ? ? ? ? ? ? ? ? ?].
    cbn [Old.start Old.r] in Hstart. subst st.
    unfold Old.End. cbv zeta. old_fields_of_sets.
    replace (time.IsZero t1) with false
      by (symmetry; apply Z.eqb_neq; exact Hset).
    old_fields_of_sets. split; reflexivity.
Qed.

Lemma Old_total_from_first_start_witness :
  exists s,
    Old.run (EvDNSStart 100 :: [EvDNSDone 200; EvDNSStart 300; EvDNSDone 400]
             ++ [EvEnd 900])
      (Old.WithHTTPStat Old.zeroResult) = Some s /\
    Old.start (Old.r s) = 100 /\
    Old.total (Old.r s) = time.Sub 900 100.
Proof.
  apply (Old_total_from_first_start 100 900
           [EvDNSDone 200; EvDNSStart 300; EvDNSDone 400]).
  lia.
Defined.

Lemma Sub_eq_0 (t u : time.Time) : time.Sub t u = 0 <-> t = u.
Proof.
  unfold time.Sub, time.minDuration, time.maxDuration.
  destruct (Z.ltb_spec (t - u) (- 2 ^ 63)); [lia |].
  destruct (Z.ltb_spec (2 ^ 63 - 1) (t - u)); lia.
Qed.

(** X10. The older [Total(t)] after [End(te)] on a started request: it is
    the total that [End] stored, whatever [t] is, unless that total is zero
    (End at the very instant of the start), when it measures [t] from the
    start instead. *)
Theorem Old_Total_after_End :
  forall (t te : time.Time) (r : Old.Result),
    Old.start r <> 0 ->
    (te <> Old.start r ->
     Old.Total t (Old.End te r) = time.Sub te (Old.start r)) /\
    (te = Old.start r ->
     Old.Total t (Old.End te r) = time.Sub t (Old.start r)).
Proof.
  intros t te r.
  destruct r as [? ? ? ? ? ? ? st ?]. cbn [Old.start]. intros Hset.
  unfold Old.Total, Old.End. cbv zeta. old_fields_of_sets.
  replace (time.IsZero st) with false
    by (symmetry; apply Z.eqb_neq; exact Hset).
  old_fields_of_sets. split; intros Hte.
  - replace (time.Sub te st =? 0) with false; [reflexivity |].
    symmetry. apply Z.eqb_neq. rewrite Sub_eq_0. exact Hte.
  - replace (time.Sub te st =? 0) with true; [reflexivity |].
    symmetry. apply Z.eqb_eq. rewrite Sub_eq_0. exact Hte.
Qed.

Lemma Old_Total_after_End_witness :
  let r := Old.r (Old.DNSStart 100 (Old.WithHTTPStat Old.zeroResult)) in
  Old.Total 5000 (Old.End 900 r) = time.Sub 900 (Old.start r) /\
  Old.Total 5000 (Old.End 100 r) = time.Sub 5000 (Old.start r).
Proof.
  intros r.
  assert (Hset : Old.start r <> 0) by (simpl; lia).
  destruct (Old_Total_after_End 5000 900 r Hset) as [H1 _].
  destruct (Old_Total_after_End 5000 100 r Hset) as [_ H2].
  split; [apply H1; simpl; lia | apply H2; reflexivity].
Defined.

Lemma add_exact (d e : time.Duration) :
  time.inRange (d + e) -> time.add d e = d + e.
Proof.
  unfold time.inRange, time.add, time.wrap, time.minDuration,
    time.maxDuration. intros H.
  rewrite Z.mod_small; lia.
Qed.

(** ** Events that fire more than once *)

(** X11. Two DNS lookups on one trace (as when a redirect is followed): the
    newer revision keeps the second lookup alone as DNSLookup and
    NameLookup, the older one adds the two lookups up in NameLookup. *)
Theorem second_lookup :
  forall t1 t2 t3 t4 : time.Time,
    t1 <= t2 -> t3 <= t4 -> (t2 - t1) + (t4 - t3) <= time.maxDuration ->
    exists r s,
      run [EvDNSStart t1; EvDNSDone t2; EvDNSStart t3; EvDNSDone t4]
        zeroResult = Some r /\
      Old.run [EvDNSStart t1; EvDNSDone t2; EvDNSStart t3; EvDNSDone t4]
        (Old.WithHTTPStat Old.zeroResult) = Some s /\
      DNSLookup r = t4 - t3 /\ NameLookup r = t4 - t3 /\
      Old.NameLookup (Old.r s) = (t2 - t1) + (t4 - t3).
Proof.
  intros t1 t2 t3 t4 H12 H34 Hm. unfold time.maxDuration in Hm.
  assert (E1 : time.Sub t2 t1 = t2 - t1)
    by (apply Sub_exact; unfold time.minDuration, time.maxDuration; lia).
  assert (E2 : time.Sub t4 t3 = t4 - t3)
    by (apply Sub_exact; unfold time.minDuration, time.maxDuration; lia).
  destruct t1 as [| p | p];
    (do 2 eexists; split; [reflexivity | split; [reflexivity |]]);
    exec_new; exec_old; rewrite add_0_Sub, E1, E2;
    (repeat split; try reflexivity);
    apply add_exact;
    unfold time.inRange, time.minDuration, time.maxDuration; lia.
Qed.

Lemma second_lookup_witness :
  exists r s,
    run [EvDNSStart 100; EvDNSDone 200; EvDNSStart 300; EvDNSDone 450]
      zeroResult = Some r /\
    Old.run [EvDNSStart 100; EvDNSDone 200; EvDNSStart 300; EvDNSDone 450]
      (Old.WithHTTPStat Old.zeroResult) = Some s /\
    DNSLookup r = 450 - 300 /\ NameLookup r = 450 - 300 /\
    Old.NameLookup (Old.r s) = (200 - 100) + (450 - 300).
Proof.
  apply (second_lookup 100 200 300 450); unfold time.maxDuration; lia.
Defined.

(** X12. Two Connect-starts with no DNS lookup before them (a dial that
    tries a second address): the synthesized dnsStart stays at the first
    one while tcpStart moves to the second, so after Connect-done
    TCPConnection counts from the second and Connect from the first, and
    TCPConnection <= Connect when the starts come in order. *)
Theorem second_ConnectStart :
  forall t1 t2 t3 : time.Time,
    t1 <> 0 ->
    exists r,
      run [EvConnectStart t1; EvConnectStart t2; EvConnectDone t3]
        zeroResult = Some r /\
      dnsStart r = t1 /\ dnsDone r = t1 /\ tcpStart r = t2 /\
      TCPConnection r = time.Sub t3 t2 /\ Connect r = time.Sub t3 t1 /\
      (t1 <= t2 -> TCPConnection r <= Connect r).
Proof.
  intros t1 t2 t3 Hset.
  set_instant t1; (eexists; split; [reflexivity |]); exec_new;
    repeat split; intros; apply Sub_mono; lia.
Qed.

Lemma second_ConnectStart_witness :
  exists r,
    run [EvConnectStart 100; EvConnectStart 250; EvConnectDone 400]
      zeroResult = Some r /\
    dnsStart r = 100 /\ dnsDone r = 100 /\ tcpStart r = 250 /\
    TCPConnection r = time.Sub 400 250 /\ Connect r = time.Sub 400 100 /\
    (100 <= 250 -> TCPConnection r <= Connect r).
Proof.
  apply (second_ConnectStart 100 250 400). lia.
Defined.

(** ** The map of durations *)

Lemma durations_PreTransfer (r : Result) :
  mapIndex (durations r) "PreTransfer" = Connect r.
Proof. reflexivity. Qed.

(** X13. Without a TLS handshake, what [durations] gives under the key
    PreTransfer after Request-written is the PreTransfer of the result. *)
Theorem durations_PreTransfer_plain :
  forall (es : list Event) (now : time.Time),
    forallb addressed es = true ->
    fired HTLSHandshakeStart es = false ->
    exists r,
      run (es ++ [EvWroteRequest now]) zeroResult = Some r /\
      mapIndex (durations r) "PreTransfer" = PreTransfer r.
Proof.
  intros es now Ha Hf.
  destruct (run_addressed es zeroResult Ha) as [r1 Hr1].
  assert (Htls : isTLS r1 = false).
  { apply (run_keeps (fun r => isTLS r = false)
             (fun k => Hook_eqb k HTLSHandshakeStart) keeps_isTLS
             es zeroResult r1); [apply not_fired, Hf | reflexivity | exact Hr1]. }
  exists (WroteRequest now r1). split.
  - rewrite run_app, Hr1. reflexivity.
  - rewrite durations_PreTransfer. symmetry.
    apply WroteRequest_plain, Htls.
Qed.

Lemma durations_PreTransfer_plain_witness :
  exists r,
    run ([EvDNSStart 100; EvDNSDone 200; EvConnectStart 300;
          EvConnectDone 400] ++ [EvWroteRequest 500]) zeroResult = Some r /\
    mapIndex (durations r) "PreTransfer" = PreTransfer r.
Proof.
  apply (durations_PreTransfer_plain
           [EvDNSStart 100; EvDNSDone 200; EvConnectStart 300;
            EvConnectDone 400] 500); reflexivity.
Defined.

(** X14. On the TLS path, [durations] gives Connect under the key
    PreTransfer: for DNS-start (at a set instant) up to First-byte with
    TLS-done after Connect-done, and within the largest duration of
    DNS-start, that is less than the PreTransfer of the result. *)
Theorem durations_PreTransfer_TLS :
  forall t1 t2 t3 t4 t5 t6 t7 t8 : time.Time,
    t1 <> 0 -> t1 <= t4 -> t4 < t6 -> t6 - t1 <= time.maxDuration ->
    exists r,
      run [EvDNSStart t1; EvDNSDone t2; EvConnectStart t3; EvConnectDone t4;
           EvTLSHandshakeStart t5; EvTLSHandshakeDone t6; EvWroteRequest t7;
           EvGotFirstResponseByte t8] zeroResult = Some r /\
      mapIndex (durations r) "PreTransfer" = Connect r /\
      mapIndex (durations r) "PreTransfer" < PreTransfer r.
Proof.
  intros t1 t2 t3 t4 t5 t6 t7 t8 Hset H14 H46 Hm.
  unfold time.maxDuration in Hm.
  set_instant t1;
    (eexists; split; [reflexivity |]);
    rewrite durations_PreTransfer; (split; [reflexivity |]); exec_new;
    rewrite !Sub_exact
      by (unfold time.minDuration, time.maxDuration; lia);
    lia.
Qed.

Lemma durations_PreTransfer_TLS_witness :
  exists r,
    run [EvDNSStart 100; EvDNSDone 200; EvConnectStart 300; EvConnectDone 400;
         EvTLSHandshakeStart 500; EvTLSHandshakeDone 600; EvWroteRequest 700;
         EvGotFirstResponseByte 800] zeroResult = Some r /\
    mapIndex (durations r) "PreTransfer" = Connect r /\
    mapIndex (durations r) "PreTransfer" < PreTransfer r.
Proof.
  apply (durations_PreTransfer_TLS 100 200 300 400 500 600 700 800);
    unfold time.maxDuration; lia.
Defined.

(** ** The formatted result *)

Lemma append_assoc (a b c : string) :
  ((a ++ b) ++ c = a ++ (b ++ c))%string.
Proof.
  induction a as [| x a IH]; simpl; [reflexivity | rewrite IH; reflexivity].
Qed.

Lemma length_append (a b : string) :
  String.length (a ++ b) = (String.length a + String.length b)%nat.
Proof.
  induction a as [| x a IH]; simpl; [reflexivity | rewrite IH; reflexivity].
Qed.

Lemma ms_printsInFour (d : time.Duration) :
  printsInFour d -> -999 <= ms d <= 9999.
Proof.
  unfold printsInFour, ms, Millisecond. intros H.
  pose proof (Z.quot_rem' d 1000000) as Hq.
  destruct (Z.le_gt_cases 0 d) as [Hd | Hd].
  - pose proof (Z.rem_bound_pos d 1000000 Hd ltac:(lia)). lia.
  - pose proof (Z.rem_nonpos d 1000000 ltac:(lia) ltac:(lia)).
    pose proof (Z.rem_bound_abs d 1000000 ltac:(lia)). lia.
Qed.

Lemma length_verb_Int (n : Z) :
  -999 <= n <= 9999 -> String.length (fmt.verb (fmt.Int n)) = 4%nat.
Proof.
  intros Hn.
  assert (Hall : forallb
            (fun k => Nat.eqb
               (String.length (fmt.verb (fmt.Int (Z.of_nat k - 999)))) 4)
            (seq 0 (Z.to_nat 10999)) = true) by (vm_compute; reflexivity).
  rewrite forallb_forall in Hall.
  specialize (Hall (Z.to_nat (n + 999))).
  replace (Z.of_nat (Z.to_nat (n + 999)) - 999) with n in Hall by lia.
  apply Nat.eqb_eq, Hall, in_seq. lia.
Qed.

(** The ten pieces that [Format] appends to its buffer. *)
Lemma Format_pieces (r : Result) :
  Format r =
  (fmt.Sprintf (fmt.lit "DNS lookup:        %4d ms\n")
     (fmt.Int (ms (DNSLookup r)))
   ++ fmt.Sprintf (fmt.lit "TCP connection:    %4d ms\n")
        (fmt.Int (ms (TCPConnection r)))
   ++ fmt.Sprintf (fmt.lit "TLS handshake:     %4d ms\n")
        (fmt.Int (ms (TLSHandshake r)))
   ++ fmt.Sprintf (fmt.lit "Server processing: %4d ms\n")
        (fmt.Int (ms (ServerProcessing r)))
   ++ (if (0 <? total r)%Z
       then fmt.Sprintf (fmt.lit "Content transfer:  %4d ms\n\n")
              (fmt.Int (ms (contentTransfer r)))
       else fmt.Sprintf (fmt.lit "Content transfer:  %4s ms\n\n")
              (fmt.Str "-"))
   ++ fmt.Sprintf (fmt.lit "Name Lookup:    %4d ms\n")
        (fmt.Int (ms (NameLookup r)))
   ++ fmt.Sprintf (fmt.lit "Connect:        %4d ms\n")
        (fmt.Int (ms (Connect r)))
   ++ fmt.Sprintf (fmt.lit "Pre Transfer:   %4d ms\n")
        (fmt.Int (ms (PreTransfer r)))
   ++ fmt.Sprintf (fmt.lit "Start Transfer: %4d ms\n")
        (fmt.Int (ms (StartTransfer r)))
   ++ (if (0 <? total r)%Z
       then fmt.Sprintf (fmt.lit "Total:          %4d ms\n")
              (fmt.Int (ms (total r)))
       else fmt.Sprintf (fmt.lit "Total:          %4s ms\n")
              (fmt.Str "-")))%string.
Proof.
  unfold Format, fmt.Fprintf. cbv zeta.
  destruct (0 <? total r); rewrite !append_assoc; reflexivity.
Qed.

(** X15. Until [End] is called, whatever hooks have fired, [Format] shows a
    dash for the content transfer and for the total. *)
Theorem Format_dash_before_End :
  forall es : list Event,
    forallb addressed es = true ->
    fired HEnd es = false ->
    exists r a b,
      run es zeroResult = Some r /\
      Format r =
      (a ++ ("Content transfer:     - ms" ++ fmt.nl ++ fmt.nl)
         ++ b ++ ("Total:             - ms" ++ fmt.nl))%string.
Proof.
  intros es Ha Hf.
  destruct (run_addressed es zeroResult Ha) as [r Hr].
  assert (Hend : contentTransfer r = 0 /\ total r = 0).
  { apply (run_keeps _ (fun k => Hook_eqb k HEnd) keeps_contentTransfer
             es zeroResult r);
      [apply not_fired, Hf | split; reflexivity | exact Hr]. }
  destruct Hend as [_ Ht].
  exists r. rewrite Format_pieces, Ht.
  change (0 <? 0) with false. cbv iota.
  lazymatch goal with
  | |- exists a b, _ /\
         (?s1 ++ ?s2 ++ ?s3 ++ ?s4 ++ _ ++ ?s6 ++ ?s7 ++ ?s8 ++ ?s9 ++ _
          = _)%string =>
      exists (s1 ++ s2 ++ s3 ++ s4)%string, (s6 ++ s7 ++ s8 ++ s9)%string
  end.
  split; [exact Hr |].
  rewrite !append_assoc. reflexivity.
Qed.

Lemma Format_dash_before_End_witness :
  exists r a b,
    run [EvDNSStart 100; EvDNSDone 200; EvConnectStart 300] zeroResult
    = Some r /\
    Format r =
    (a ++ ("Content transfer:     - ms" ++ fmt.nl ++ fmt.nl)
       ++ b ++ ("Total:             - ms" ++ fmt.nl))%string.
Proof.
  apply (Format_dash_before_End
           [EvDNSStart 100; EvDNSDone 200; EvConnectStart 300]);
    reflexivity.
Defined.

(** X16. When each of the ten durations is more than minus one second and
    less than ten seconds, every number fits its four columns and the text
    that [Format] writes is 256 bytes long, ended or not. *)
Theorem Format_length :
  forall r : Result,
    printsInFour (DNSLookup r) -> printsInFour (TCPConnection r) ->
    printsInFour (TLSHandshake r) -> printsInFour (ServerProcessing r) ->
    printsInFour (contentTransfer r) -> printsInFour (NameLookup r) ->
    printsInFour (Connect r) -> printsInFour (PreTransfer r) ->
    printsInFour (StartTransfer r) -> printsInFour (total r) ->
    String.length (Format r) = 256%nat.
Proof.
  intros r H1 H2 H3 H4 H5 H6 H7 H8 H9 H10.
  apply ms_printsInFour, length_verb_Int in H1, H2, H3, H4, H5, H6, H7, H8,
    H9, H10.
  rewrite Format_pieces.
  destruct (0 <? total r);
    cbn -[fmt.verb ms];
    repeat first [ rewrite length_append | progress cbn [String.length] ];
    rewrite ?H1, ?H2, ?H3, ?H4, ?H5, ?H6, ?H7, ?H8, ?H9, ?H10;
    reflexivity.
Qed.

Lemma Format_length_witness :
  String.length
    (Format (End 900000000
               (GotFirstResponseByte 800000000 (DNSStart 100 zeroResult))))
  = 256%nat.
Proof.
  apply Format_length; vm_compute; split; reflexivity.
Defined.

(** X17. The timeline block that the newer [Format] writes last is the
    whole text of the older [Format], for results that agree on NameLookup,
    Connect, PreTransfer, StartTransfer and total. *)
Theorem Format_ends_with_Old_Format :
  forall (r : Result) (o : Old.Result),
    NameLookup r = Old.NameLookup o -> Connect r = Old.Connect o ->
    PreTransfer r = Old.PreTransfer o ->
    StartTransfer r = Old.StartTransfer o -> total r = Old.total o ->
    exists a, Format r = (a ++ Old.Format o)%string.
Proof.
  intros r o H1 H2 H3 H4 H5.
  rewrite Format_pieces, H1, H2, H3, H4, H5.
  unfold Old.Format, fmt.Fprintf. cbv zeta.
  lazymatch goal with
  | |- exists a, (?s1 ++ ?s2 ++ ?s3 ++ ?s4 ++ ?s5 ++ _ = _)%string =>
      exists (s1 ++ s2 ++ s3 ++ s4 ++ s5)%string
  end.
  destruct (0 <? Old.total o); rewrite !append_assoc; reflexivity.
Qed.

Lemma Format_ends_with_Old_Format_witness :
  exists a,
    Format (End 900 (DNSDone 200 (DNSStart 100 zeroResult))) =
    (a ++ Old.Format
            (Old.End 900
               (Old.r (Old.DNSDone 200
                         (Old.DNSStart 100
                            (Old.WithHTTPStat Old.zeroResult))))))%string.
Proof.
  apply Format_ends_with_Old_Format; reflexivity.
Defined.

(** ** The reused connection, from any state *)

Lemma WroteRequest_reused (now : time.Time) (r : Result) :
  isReused r = true ->
  let r' := WroteRequest now r in
  dnsStart r' = now /\ dnsDone r' = now /\ tcpStart r' = now /\
  tcpDone r' = now /\ tlsStart r' = now /\ tlsDone r' = now /\
  serverStart r' = now.
Proof.
  destruct r as [? ? ? ? ? ? ? ? ? ? ? ? ds ? ts ? ? ? ? ? ? ? tl ru].
  cbn [isReused]. intros ->.
  destruct ds, ts, tl; exec_new; repeat split.
Qed.

Lemma isReused_stays (e : Event) (r r' : Result) :
  isReused r = true -> fire e r = Some r' -> isReused r' = true.
Proof.
  intros HP H. fire_cases H; split_ifs; try exact HP; reflexivity.
Qed.

Lemma isReused_fired (es : list Event) (r r' : Result) :
  existsb reusedConn es = true ->
  run es r = Some r' -> isReused r' = true.
Proof.
  revert r. induction es as [| e es IH]; intros r Hf Hrun.
  - discriminate Hf.
  - simpl in Hrun.
    destruct (fire e r) as [r1 |] eqn:He; simpl in Hrun; [| discriminate].
    simpl in Hf. destruct (reusedConn e) eqn:Hk.
    + apply (run_invariant _ isReused_stays es r1 r'); [| exact Hrun].
      destruct e as [? | ? | ? | ? | ? | ? | ? [[[la |] [ra |]] reused] | ? | ? | ?];
        try discriminate Hk.
      * cbn [reusedConn Reused] in Hk. subst reused.
        change (GotConn (connected la ra true) r = Some r1) in He.
        rewrite GotConn_connected in He. injection He as <-. reflexivity.
      * cbn [fire] in He. unfold GotConn, bind, addrString in He.
        cbn [LocalAddr RemoteAddr conn] in He.
        rewrite ?index0_Split in He. discriminate He.
      * discriminate He.
      * discriminate He.
    + apply (IH r1); [exact Hf | exact Hrun].
Qed.

(** C2, amended. On a reused connection the DNS, TCP and TLS instants are
    synthesized at Request-written and equal the request-written instant:
    whatever the result held before, once isReused is set Request-written
    puts dnsStart, dnsDone, tcpStart, tcpDone, tlsStart and tlsDone at its
    own instant; so after any events among which the connection was
    acquired as reused, Request-written and First-byte leave the six
    instants at the request-written instant and StartTransfer at serverDone
    minus it.  For Connection-acquired(reused), Request-written, First-byte,
    End this gives DNSLookup = TCPConnection = TLSHandshake = 0 and
    StartTransfer = serverDone minus the request-written instant. *)
Theorem reused_connection :
  (forall (now : time.Time) (r : Result),
      isReused r = true ->
      let r' := WroteRequest now r in
      dnsStart r' = now /\ dnsDone r' = now /\ tcpStart r' = now /\
      tcpDone r' = now /\ tlsStart r' = now /\ tlsDone r' = now /\
      serverStart r' = now) /\
  (forall (es : list Event) (tw tf : time.Time),
      forallb addressed es = true ->
      existsb reusedConn es = true ->
      exists r,
        run (es ++ [EvWroteRequest tw; EvGotFirstResponseByte tf]) zeroResult
        = Some r /\
        isReused r = true /\
        dnsStart r = tw /\ dnsDone r = tw /\ tcpStart r = tw /\
        tcpDone r = tw /\ tlsStart r = tw /\ tlsDone r = tw /\
        serverStart r = tw /\ serverDone r = tf /\
        StartTransfer r = time.Sub (serverDone r) tw) /\
  (forall (tg tw tf te : time.Time) (la ra : string),
      exists r,
        run [EvGotConn tg (connected la ra true); EvWroteRequest tw;
             EvGotFirstResponseByte tf; EvEnd te] zeroResult = Some r /\
        isReused r = true /\
        dnsStart r = tw /\ dnsDone r = tw /\ tcpStart r = tw /\
        tcpDone r = tw /\ tlsStart r = tw /\ tlsDone r = tw /\
        serverStart r = tw /\ serverDone r = tf /\
        DNSLookup r = 0 /\ TCPConnection r = 0 /\ TLSHandshake r = 0 /\
        StartTransfer r = time.Sub (serverDone r) tw).
Proof.
  split; [exact WroteRequest_reused | split].
  - intros es tw tf Ha Hf.
    destruct (run_addressed es zeroResult Ha) as [r1 Hr1].
    pose proof (isReused_fired es zeroResult r1 Hf Hr1) as Hre.
    destruct (WroteRequest_reused tw r1 Hre)
      as (H1 & H2 & H3 & H4 & H5 & H6 & H7).
    exists (GotFirstResponseByte tf (WroteRequest tw r1)). split.
    + rewrite run_app, Hr1. reflexivity.
    + unfold GotFirstResponseByte. cbv zeta. fields_of_sets.
      rewrite H1, H2, H3, H4, H5, H6, H7.
      repeat split.
      apply (isReused_stays (EvWroteRequest tw) r1 _ Hre). reflexivity.
  - intros tg tw tf te la ra.
    cbn [run fire]. rewrite GotConn_connected. cbn [bind].
    destruct tw as [| p | p];
      (eexists; split; [reflexivity |]); exec_new;
      rewrite ?Sub_diag; repeat split.
Qed.

Lemma reused_connection_witness :
  (let r := set_isReused true (ConnectDone 80 (ConnectStart 50 zeroResult)) in
   let r' := WroteRequest 250 r in
   dnsStart r' = 250 /\ dnsDone r' = 250 /\ tcpStart r' = 250 /\
   tcpDone r' = 250 /\ tlsStart r' = 250 /\ tlsDone r' = 250 /\
   serverStart r' = 250) /\
  (exists r,
      run ([EvConnectStart 50; EvConnectDone 80;
            EvGotConn 100 (connected "10.0.0.5:51000" "93.184.216.34:443" true)]
           ++ [EvWroteRequest 250; EvGotFirstResponseByte 400]) zeroResult
      = Some r /\
      isReused r = true /\
      dnsStart r = 250 /\ dnsDone r = 250 /\ tcpStart r = 250 /\
      tcpDone r = 250 /\ tlsStart r = 250 /\ tlsDone r = 250 /\
      serverStart r = 250 /\ serverDone r = 400 /\
      StartTransfer r = time.Sub (serverDone r) 250).
Proof.
  split.
  - apply (proj1 reused_connection 250
             (set_isReused true (ConnectDone 80 (ConnectStart 50 zeroResult)))).
    reflexivity.
  - apply (proj1 (proj2 reused_connection)
             [EvConnectStart 50; EvConnectDone 80;
              EvGotConn 100
                (connected "10.0.0.5:51000" "93.184.216.34:443" true)]
             250 400); reflexivity.
Defined.

(** ** Durations are never negative *)

(** The instants a later difference is taken from lie at or before [t], and
    no duration is negative. *)
Lemma keeps_nonneg (e : Event) (r r' : Result) (t : time.Time) :
  (dnsStart r <= t /\ tcpStart r <= t /\ tlsStart r <= t /\
   serverStart r <= t /\ transferStart r <= t) /\
  (0 <= NameLookup r /\ 0 <= Connect r /\ 0 <= PreTransfer r /\
   0 <= StartTransfer r /\ 0 <= total r /\ 0 <= DNSLookup r /\
   0 <= TCPConnection r /\ 0 <= TLSHandshake r /\
   0 <= ServerProcessing r /\ 0 <= contentTransfer r) ->
  t <= instant e ->
  fire e r = Some r' ->
  (dnsStart r' <= instant e /\ tcpStart r' <= instant e /\
   tlsStart r' <= instant e /\ serverStart r' <= instant e /\
   transferStart r' <= instant e) /\
  (0 <= NameLookup r' /\ 0 <= Connect r' /\ 0 <= PreTransfer r' /\
   0 <= StartTransfer r' /\ 0 <= total r' /\ 0 <= DNSLookup r' /\
   0 <= TCPConnection r' /\ 0 <= TLSHandshake r' /\
   0 <= ServerProcessing r' /\ 0 <= contentTransfer r').
Proof.
  intros ((I1 & I2 & I3 & I4 & I5) &
          (H1 & H2 & H3 & H4 & H5 & H6 & H7 & H8 & H9 & H10)) Ht H.
  fire_cases H; cbn [instant] in Ht |- *; split_ifs; fields_of_sets;
    repeat match goal with |- _ /\ _ => split end;
    solve [ assumption | lia | apply Sub_nonneg; lia ].
Qed.

Lemma run_nonneg (es : list Event) (r r' : Result) (t : time.Time) :
  (dnsStart r <= t /\ tcpStart r <= t /\ tlsStart r <= t /\
   serverStart r <= t /\ transferStart r <= t) /\
  (0 <= NameLookup r /\ 0 <= Connect r /\ 0 <= PreTransfer r /\
   0 <= StartTransfer r /\ 0 <= total r /\ 0 <= DNSLookup r /\
   0 <= TCPConnection r /\ 0 <= TLSHandshake r /\
   0 <= ServerProcessing r /\ 0 <= contentTransfer r) ->
  ordered t es = true ->
  run es r = Some r' ->
  0 <= NameLookup r' /\ 0 <= Connect r' /\ 0 <= PreTransfer r' /\
  0 <= StartTransfer r' /\ 0 <= total r' /\ 0 <= DNSLookup r' /\
  0 <= TCPConnection r' /\ 0 <= TLSHandshake r' /\
  0 <= ServerProcessing r' /\ 0 <= contentTransfer r'.
Proof.
  revert r t. induction es as [| e es IH]; intros r t Hinit Ho Hr.
  - simpl in Hr. injection Hr as <-. exact (proj2 Hinit).
  - simpl in Ho, Hr. apply andb_true_iff in Ho as [Hle Ho].
    apply Z.leb_le in Hle.
    destruct (fire e r) as [r1 |] eqn:He; simpl in Hr; [| discriminate].
    apply (IH r1 (instant e)); [| exact Ho | exact Hr].
    exact (keeps_nonneg e r r1 t Hinit Hle He).
Qed.

(** X6. Whatever hooks and calls of [End] occur, in any order, repeated or
    cut short, as long as their instants are not before the zero instant
    and do not decrease, no duration of the result is negative. *)
Theorem durations_nonnegative :
  forall es : list Event,
    forallb addressed es = true ->
    ordered 0 es = true ->
    exists r,
      run es zeroResult = Some r /\
      0 <= NameLookup r /\ 0 <= Connect r /\ 0 <= PreTransfer r /\
      0 <= StartTransfer r /\ 0 <= total r /\ 0 <= DNSLookup r /\
      0 <= TCPConnection r /\ 0 <= TLSHandshake r /\
      0 <= ServerProcessing r /\ 0 <= contentTransfer r.
Proof.
  intros es Ha Ho.
  destruct (run_addressed es zeroResult Ha) as [r Hr].
  exists r. split; [exact Hr |].
  apply (run_nonneg es zeroResult r 0); [simpl; lia | exact Ho | exact Hr].
Qed.

Lemma durations_nonnegative_witness :
  exists r,
    run [EvTLSHandshakeDone 100; EvGotFirstResponseByte 100; EvDNSDone 300;
         EvConnectStart 300; EvEnd 400; EvWroteRequest 450] zeroResult
    = Some r /\
    0 <= NameLookup r /\ 0 <= Connect r /\ 0 <= PreTransfer r /\
    0 <= StartTransfer r /\ 0 <= total r /\ 0 <= DNSLookup r /\
    0 <= TCPConnection r /\ 0 <= TLSHandshake r /\
    0 <= ServerProcessing r /\ 0 <= contentTransfer r.
Proof.
  apply (durations_nonnegative
           [EvTLSHandshakeDone 100; EvGotFirstResponseByte 100; EvDNSDone 300;
            EvConnectStart 300; EvEnd 400; EvWroteRequest 450]);
    reflexivity.
Defined.
